(** * Regulatory Document Explorer: a shallow embedding of [src/App.jsx]

    The component keeps a list of documents fetched page by page from the
    Federal Register API, derives two facet lists from it, filters it on the
    client, and mirrors a list of bookmarked document numbers into
    [localStorage].  Each JavaScript function of the component is embedded
    as a Rocq function of the same name; the platform operations it calls
    ([String.prototype.trim], [Set], [Array.prototype.sort], [URL],
    [JSON], [Storage], [fetch]) are modelled in the modules [Js], [Url],
    [Json] and [Platform].

    Conventions.
    - A JavaScript string is a [string]: one [ascii] per code unit, so the
      model covers the code units U+0000..U+00FF.  The order [String.ltb] /
      [String.leb] compares code unit by code unit, a proper prefix first,
      which is the order of [<] on strings and of the default [sort].
    - A property that may be missing is an [option]: [None] is [undefined].
    - The page counter is an [N]; the source holds it in a double, which is
      exact on every value a session can reach. *)

From Stdlib Require Import Ascii.
From stdpp Require Import base list strings gmap sorting pretty.

#[local] Set Warnings "-clear-no-such-hyp".

(** ** JavaScript primitives *)

Module Js.

(** [if (s)] on a string: every string but the empty one is truthy. *)
Definition truthy (s : string) : bool := negb (String.eqb s "").

(** [Boolean(x)] on a string that may be [undefined]. *)
Definition Boolean (x : option string) : bool :=
  match x with
  | Some s => truthy s
  | None => false
  end.

(** [Boolean(n)] on a length: zero is the one falsy value. *)
Definition Boolean_number (n : nat) : bool := negb (n =? 0)%nat.

(** [x < y] and [x > y] with [y] a string.  When [x] is [undefined] it is
    converted to NaN and both comparisons are false; two strings are
    compared by code units. *)
Definition lt (x : option string) (y : string) : bool :=
  match x with
  | Some a => String.ltb a y
  | None => false
  end.

Definition gt (x : option string) (y : string) : bool :=
  match x with
  | Some a => String.ltb y a
  | None => false
  end.

(** [x !== y] with [y] a string. *)
Definition strict_ne (x : option string) (y : string) : bool :=
  match x with
  | Some a => negb (String.eqb a y)
  | None => true
  end.

(** [l.includes(x)] on an array of strings. *)
Definition includes (x : string) (l : list string) : bool :=
  existsb (String.eqb x) l.

(** White space and line terminators among the code units of the model. *)
Definition is_white_space (c : ascii) : bool :=
  match c with
  | "009" | "010" | "011" | "012" | "013" | " " | "160" => true
  | _ => false
  end%char.

Fixpoint trim_start (s : string) : string :=
  match s with
  | "" => ""
  | String c s' => if is_white_space c then trim_start s' else s
  end.

Fixpoint trim_end (s : string) : string :=
  match s with
  | "" => ""
  | String c s' =>
      let t := trim_end s' in
      if is_white_space c && negb (truthy t) then "" else String c t
  end.

(** [s.trim()] *)
Definition trim (s : string) : string := trim_end (trim_start s).

(** [String(n)] and [`${n}`] on a non-negative integer, as far as page
    numbers and status codes go: its decimal digits. *)
Definition String_ (n : N) : string := pretty n.

(** A [Set] of strings keeps its elements in insertion order; adding an
    element that is already there changes nothing. *)
Definition Set_add (x : string) (s : list string) : list string :=
  if includes x s then s else s ++ [x].

(** [new Set(l)] *)
Definition Set_new (l : list string) : list string :=
  foldl (λ s x, Set_add x s) [] l.

(** [Array.from(set)] *)
Definition Array_from (s : list string) : list string := s.

(** [a.sort()] with no comparator orders strings by code units.  The
    engine's algorithm is not fixed by the language, but its result is:
    two strings that compare equal are the same string, so an array of
    strings has one sorted rearrangement ([sort_unique] below). *)
Definition sort (a : list string) : list string := merge_sort String.le a.

(** [l.filter(Boolean)] on strings that may be [undefined]: what remains
    are the non-empty strings. *)
Definition filter_Boolean (l : list (option string)) : list string :=
  omap (λ x, if Boolean x then x else None) l.

End Js.

(** ** Completions: a call either returns or throws *)

Inductive ErrorClass := BaseError | TypeError | SyntaxError | DOMException.

(** A thrown [Error] object: its constructor and its [message]. *)
Record JsError := { error_class : ErrorClass; message : string }.

Inductive completion (A : Type) : Type :=
| Normal (a : A)
| Throw (e : JsError).
Arguments Normal {A} a.
Arguments Throw {A} e.

#[global] Instance completion_ret : MRet completion := λ A a, Normal a.
#[global] Instance completion_bind : MBind completion := λ A B f m,
  match m with
  | Normal a => f a
  | Throw e => Throw e
  end.

(** [new Error(msg)] *)
Definition new_Error (msg : string) : JsError :=
  {| error_class := BaseError; message := msg |}.

(** ** The [URL] object and its [searchParams] *)

Module Url.

(** A parsed URL: everything in front of the query, and the list of
    name-value pairs of its [searchParams], in order. *)
Record URL := { base : string; searchParams : list (string * string) }.

(** [new URL(href)] for an absolute [href] in normal form that has neither
    a query nor a fragment, which is what [API_BASE] is. *)
Definition new_URL (href : string) : URL :=
  {| base := href; searchParams := [] |}.

Definition has_name (n : string) (p : string * string) : bool :=
  String.eqb p.1 n.

Fixpoint set_first (n v : string) (l : list (string * string))
  : list (string * string) :=
  match l with
  | [] => []
  | p :: l' =>
      if has_name n p
      then (n, v) :: List.filter (λ p', negb (has_name n p')) l'
      else p :: set_first n v l'
  end.

(** [url.searchParams.set(n, v)]: the first pair named [n] takes the value
    [v] and the other pairs named [n] go away; with no such pair, a new
    one is appended. *)
Definition searchParams_set (n v : string) (u : URL) : URL :=
  {| base := base u;
     searchParams :=
       if existsb (has_name n) (searchParams u)
       then set_first n v (searchParams u)
       else searchParams u ++ [(n, v)] |}.

Definition hex_digit (n : N) : ascii :=
  ascii_of_N (if (n <? 10)%N then 48 + n else 55 + n).

Definition percent (byte : N) : string :=
  String "%" (String (hex_digit (byte / 16)) (String (hex_digit (byte mod 16)) "")).

(** The form-urlencoded byte serializer applied to the UTF-8 bytes of one
    code unit: letters, digits and [* - . _] stay, a space becomes [+],
    every other byte is percent-encoded. *)
Definition unreserved (c : N) : bool :=
  ((48 <=? c) && (c <=? 57) || (65 <=? c) && (c <=? 90)
   || (97 <=? c) && (c <=? 122)
   || (c =? 42) || (c =? 45) || (c =? 46) || (c =? 95))%N.

Definition encode_unit (a : ascii) : string :=
  let c := N_of_ascii a in
  if unreserved c then String a ""
  else if (c =? 32)%N then "+"
  else if (c <? 128)%N then percent c
  else percent (192 + c / 64) +:+ percent (128 + c mod 64).

Fixpoint urlencode (s : string) : string :=
  match s with
  | "" => ""
  | String a s' => encode_unit a +:+ urlencode s'
  end.

Definition serialize_pair (p : string * string) : string :=
  urlencode p.1 +:+ "=" +:+ urlencode p.2.

Definition serialize (l : list (string * string)) : string :=
  String.concat "&" (map serialize_pair l).

(** [url.toString()] *)
Definition toString (u : URL) : string :=
  match searchParams u with
  | [] => base u
  | l => base u +:+ "?" +:+ serialize l
  end.

End Url.
(** ** JSON text *)

Module Json.

(** A JSON value.  A number is carried as the text of its literal: the
    component never computes with one. *)
#[local] Set Warnings "-register-all".
Inductive json :=
| JNull
| JBool (b : bool)
| JNumber (literal : string)
| JString (s : string)
| JArray (items : list json)
| JObject (members : list (string * json)).
#[local] Set Warnings "register-all".

Definition DQUOTE : ascii := "034"%char.
Definition BACKSLASH : ascii := "092"%char.

Definition lower_hex_digit (n : N) : ascii :=
  ascii_of_N (if (n <? 10)%N then 48 + n else 87 + n).

(** One code unit inside a quoted JSON string, as [JSON.stringify] writes
    it: short escapes where they exist, [\u00xx] for the other control
    characters, the unit itself otherwise. *)
Definition quote_unit (a : ascii) : string :=
  let esc c := String BACKSLASH (String c "") in
  match a with
  | "008" => esc "b"
  | "009" => esc "t"
  | "010" => esc "n"
  | "012" => esc "f"
  | "013" => esc "r"
  | "034" => esc DQUOTE
  | "092" => esc BACKSLASH
  | _ =>
      let c := N_of_ascii a in
      if (c <? 32)%N
      then String BACKSLASH
             (String "u" (String "0" (String "0"
               (String (lower_hex_digit (c / 16))
                 (String (lower_hex_digit (c mod 16)) "")))))
      else String a ""
  end%char.

Fixpoint quote_units (s : string) : string :=
  match s with
  | "" => ""
  | String a s' => quote_unit a +:+ quote_units s'
  end.

Definition quote (s : string) : string :=
  String DQUOTE (quote_units s +:+ String DQUOTE "").

(** [JSON.stringify(v)] *)
Fixpoint stringify (v : json) : string :=
  match v with
  | JNull => "null"
  | JBool true => "true"
  | JBool false => "false"
  | JNumber literal => literal
  | JString s => quote s
  | JArray items => "[" +:+ String.concat "," (map stringify items) +:+ "]"
  | JObject members =>
      "{" +:+ String.concat ","
                (map (λ m, quote m.1 +:+ ":" +:+ stringify m.2) members)
          +:+ "}"
  end.

(** *** Parsing *)

Definition is_ws (a : ascii) : bool :=
  match a with
  | " " | "009" | "010" | "013" => true
  | _ => false
  end%char.

Fixpoint skip_ws (s : string) : string :=
  match s with
  | String a s' => if is_ws a then skip_ws s' else s
  | "" => ""
  end.

Definition hex_value (a : ascii) : option N :=
  let c := N_of_ascii a in
  if ((48 <=? c) && (c <=? 57))%N then Some (c - 48)%N
  else if ((65 <=? c) && (c <=? 70))%N then Some (c - 55)%N
  else if ((97 <=? c) && (c <=? 102))%N then Some (c - 87)%N
  else None.

(** The code unit written by the four hex digits of a [\u] escape; units
    above U+00FF are outside the string model and are not accepted. *)
Definition unicode_escape (h1 h2 h3 h4 : ascii) : option ascii :=
  a ← hex_value h1; b ← hex_value h2; c ← hex_value h3; d ← hex_value h4;
  let n := (((a * 16 + b) * 16 + c) * 16 + d)%N in
  if (n <? 256)%N then Some (ascii_of_N n) else None.

Definition push (a : ascii) (r : option (string * string))
  : option (string * string) :=
  '(s, rest) ← r; Some (String a s, rest).

(** The characters of a string literal after its opening quote, up to and
    including the closing quote: the decoded string and the rest of the
    input. *)
Fixpoint parse_chars (s : string) : option (string * string) :=
  match s with
  | "" => None
  | String a r =>
      if Ascii.eqb a DQUOTE then Some ("", r)
      else if Ascii.eqb a BACKSLASH then
        match r with
        | String e r' =>
            match e with
            | "034" | "092" | "/" => push e (parse_chars r')
            | "b" => push "008" (parse_chars r')
            | "f" => push "012" (parse_chars r')
            | "n" => push "010" (parse_chars r')
            | "r" => push "013" (parse_chars r')
            | "t" => push "009" (parse_chars r')
            | "u" =>
                match r' with
                | String h1 (String h2 (String h3 (String h4 r''))) =>
                    match unicode_escape h1 h2 h3 h4 with
                    | Some c => push c (parse_chars r'')
                    | None => None
                    end
                | _ => None
                end
            | _ => None
            end%char
        | "" => None
        end
      else if (N_of_ascii a <? 32)%N then None
      else push a (parse_chars r)
  end.

Definition is_digit (a : ascii) : bool :=
  let c := N_of_ascii a in ((48 <=? c) && (c <=? 57))%N.

(** The longest prefix of digits, and what follows it. *)
Fixpoint digits (s : string) : string * string :=
  match s with
  | String a s' =>
      if is_digit a then let '(d, r) := digits s' in (String a d, r)
      else ("", s)
  | "" => ("", "")
  end.

Definition parse_int (s : string) : option (string * string) :=
  match s with
  | String "0" r => Some ("0", r)
  | _ =>
      let '(d, r) := digits s in
      if Js.truthy d then Some (d, r) else None
  end.

Definition parse_frac (s : string) : option (string * string) :=
  match s with
  | String "." r =>
      let '(d, r') := digits r in
      if Js.truthy d then Some (String "." d, r') else None
  | _ => Some ("", s)
  end.

Definition parse_exp (s : string) : option (string * string) :=
  match s with
  | String e r =>
      if Ascii.eqb e "e" || Ascii.eqb e "E" then
        let '(sign, r1) :=
          match r with
          | String "+" r1 => ("+", r1)
          | String "-" r1 => ("-", r1)
          | _ => ("", r)
          end in
        let '(d, r2) := digits r1 in
        if Js.truthy d then Some (String e (sign +:+ d), r2) else None
      else Some ("", s)
  | "" => Some ("", s)
  end.

Definition parse_number (s : string) : option (string * string) :=
  let '(sign, s1) :=
    match s with
    | String "-" r => ("-", r)
    | _ => ("", s)
    end in
  '(i, s2) ← parse_int s1;
  '(f, s3) ← parse_frac s2;
  '(e, s4) ← parse_exp s3;
  Some (sign +:+ i +:+ f +:+ e, s4).

(** [expect w s]: [s] without its prefix [w]. *)
Fixpoint expect (w s : string) : option string :=
  match w, s with
  | "", _ => Some s
  | String a w', String b s' => if Ascii.eqb a b then expect w' s' else None
  | _, "" => None
  end.

(** One JSON value at the head of [s] (after white space) and the rest
    of the input.  [fuel] bounds the nesting of calls; [parse] below
    supplies more than any input can use. *)
Fixpoint parse_value (fuel : nat) (s : string) : option (json * string) :=
  match fuel with
  | O => None
  | S fuel =>
      match skip_ws s with
      | "" => None
      | String a r =>
          if Ascii.eqb a "n" then r' ← expect "ull" r; Some (JNull, r')
          else if Ascii.eqb a "t" then r' ← expect "rue" r; Some (JBool true, r')
          else if Ascii.eqb a "f" then r' ← expect "alse" r; Some (JBool false, r')
          else if Ascii.eqb a DQUOTE then
            '(str, r') ← parse_chars r; Some (JString str, r')
          else if Ascii.eqb a "[" then
            match skip_ws r with
            | String "]" r' => Some (JArray [], r')
            | _ => '(l, r') ← parse_elements fuel r; Some (JArray l, r')
            end
          else if Ascii.eqb a "{" then
            match skip_ws r with
            | String "}" r' => Some (JObject [], r')
            | _ => '(l, r') ← parse_members fuel r; Some (JObject l, r')
            end
          else
            '(n, r') ← parse_number (String a r); Some (JNumber n, r')
      end
  end
with parse_elements (fuel : nat) (s : string) : option (list json * string) :=
  match fuel with
  | O => None
  | S fuel =>
      '(v, r) ← parse_value fuel s;
      match skip_ws r with
      | String "," r' => '(l, r'') ← parse_elements fuel r'; Some (v :: l, r'')
      | String "]" r' => Some ([v], r')
      | _ => None
      end
  end
with parse_members (fuel : nat) (s : string)
  : option (list (string * json) * string) :=
  match fuel with
  | O => None
  | S fuel =>
      match skip_ws s with
      | String a r =>
          if Ascii.eqb a DQUOTE then
            '(k, r1) ← parse_chars r;
            match skip_ws r1 with
            | String ":" r2 =>
                '(v, r3) ← parse_value fuel r2;
                match skip_ws r3 with
                | String "," r4 =>
                    '(l, r5) ← parse_members fuel r4; Some ((k, v) :: l, r5)
                | String "}" r4 => Some ([(k, v)], r4)
                | _ => None
                end
            | _ => None
            end
          else None
      | "" => None
      end
  end.

Definition syntax_error : JsError :=
  {| error_class := SyntaxError; message := "Unexpected token in JSON" |}.

(** [JSON.parse(text)]: the value when all of [text] is one JSON value
    between white space, a [SyntaxError] otherwise. *)
Definition parse (text : string) : completion json :=
  match parse_value (S (String.length text)) text with
  | Some (v, rest) =>
      match skip_ws rest with
      | "" => Normal v
      | _ => Throw syntax_error
      end
  | None => Throw syntax_error
  end.

End Json.
(** ** Data model *)

Record Agency := { name : string }.

(** A document of the API's [results] array, with the fields the component
    reads.  The optional ones are those the source guards against being
    missing ([d.agencies || []], [d.document_type || ...],
    [filter(Boolean)], [if (!iso)]). *)
Record Document := {
  title : string;
  publication_date : option string;
  document_type : option string;
  agencies : option (list Agency);
  abstract : option string;
  citation : option string;
  document_number : string;
  html_url : string
}.

(** ** The browser: [localStorage] and [fetch] *)

Module Platform.

(** [localStorage]: the stored items, and whether reading and writing
    work at all (a disabled store throws on access, a full one on
    [setItem]). *)
Record Storage := {
  items : gmap string string;
  readable : bool;
  writable : bool
}.

Definition storage_error : JsError :=
  {| error_class := DOMException; message := "The operation is insecure." |}.

(** [localStorage.getItem(key)]; [None] is [null]. *)
Definition getItem (key : string) (ls : Storage) : completion (option string) :=
  if readable ls then Normal (items ls !! key) else Throw storage_error.

(** [localStorage.setItem(key, value)] *)
Definition setItem (key value : string) (ls : Storage) : completion Storage :=
  if writable ls
  then Normal {| items := <[key := value]> (items ls);
                 readable := readable ls; writable := writable ls |}
  else Throw storage_error.

(** The decoded body of a response: [results] may be missing. *)
Record Payload := { results : option (list Document) }.

(** The body of a response: text that is no JSON, or the decoded value,
    which is [None] for [null] and for anything that is no object. *)
Inductive Body :=
| NotJson (msg : string)
| Parsed (data : option Payload).

Record Response := { status : N; body : Body }.

(** [res.ok]: the status is in the range 200-299. *)
Definition ok (res : Response) : bool :=
  ((200 <=? status res) && (status res <=? 299))%N.

(** [res.json()]: rejects with a [SyntaxError] on a body that is no JSON. *)
Definition json (res : Response) : completion (option Payload) :=
  match body res with
  | NotJson msg => Throw {| error_class := SyntaxError; message := msg |}
  | Parsed data => Normal data
  end.

(** What a request comes to: no response at all, or a response. *)
Inductive FetchOutcome :=
| NetworkError (msg : string)
| Responded (res : Response).

(** The network, as the outcome of a request to each URL. *)
Definition Network := string → FetchOutcome.

(** [fetch(url)]: rejects with a [TypeError] when no response arrives, and
    resolves with the response otherwise, whatever its status. *)
Definition fetch_promise (net : Network) (url : string) : completion Response :=
  match net url with
  | NetworkError msg => Throw {| error_class := TypeError; message := msg |}
  | Responded res => Normal res
  end.

End Platform.

(** ** The hook [useLocalStorage] *)

(** The initializer of the hook's state: the value read at startup. *)
Definition useLocalStorage_init
    (key : string) (initialValue : Json.json) (ls : Platform.Storage)
  : Json.json :=
  let attempt :=
    raw ← Platform.getItem key ls;
    if Js.Boolean raw then Json.parse (default "" raw) else Normal initialValue in
  match attempt with
  | Normal v => v
  | Throw _ => initialValue
  end.

(** The hook's effect, run when the value changes: the write, with its
    exception swallowed. *)
Definition useLocalStorage_effect
    (key : string) (value : Json.json) (ls : Platform.Storage)
  : Platform.Storage :=
  match Platform.setItem key (Json.stringify value) ls with
  | Normal ls' => ls'
  | Throw _ => ls
  end.

(** ** The component [App] *)

Definition API_BASE : string :=
  "https://www.federalregister.gov/api/v1/documents.json".

Definition BOOKMARKS_KEY : string := "regx_bookmarks".

(** The state variables of the component, one field per [useState]. *)
Record AppState := {
  docs : list Document;
  page : N;
  hasMore : bool;
  loading : bool;
  error : string;
  selected : option Document;
  q : string;
  agency : string;
  docType : string;
  startDate : string;
  endDate : string;
  bookmarks : list string
}.

(** The state of the first render. *)
Definition initial_state (stored_bookmarks : list string) : AppState :=
  {| docs := []; page := 1; hasMore := true; loading := false; error := "";
     selected := None; q := ""; agency := ""; docType := ""; startDate := "";
     endDate := ""; bookmarks := stored_bookmarks |}.

Definition setDocs (f : list Document → list Document) (s : AppState) : AppState :=
  {| docs := f (docs s); page := page s; hasMore := hasMore s;
     loading := loading s; error := error s; selected := selected s; q := q s;
     agency := agency s; docType := docType s; startDate := startDate s;
     endDate := endDate s; bookmarks := bookmarks s |}.

Definition setPage (v : N) (s : AppState) : AppState :=
  {| docs := docs s; page := v; hasMore := hasMore s;
     loading := loading s; error := error s; selected := selected s; q := q s;
     agency := agency s; docType := docType s; startDate := startDate s;
     endDate := endDate s; bookmarks := bookmarks s |}.

Definition setHasMore (v : bool) (s : AppState) : AppState :=
  {| docs := docs s; page := page s; hasMore := v;
     loading := loading s; error := error s; selected := selected s; q := q s;
     agency := agency s; docType := docType s; startDate := startDate s;
     endDate := endDate s; bookmarks := bookmarks s |}.

Definition setLoading (v : bool) (s : AppState) : AppState :=
  {| docs := docs s; page := page s; hasMore := hasMore s;
     loading := v; error := error s; selected := selected s; q := q s;
     agency := agency s; docType := docType s; startDate := startDate s;
     endDate := endDate s; bookmarks := bookmarks s |}.

Definition setError (v : string) (s : AppState) : AppState :=
  {| docs := docs s; page := page s; hasMore := hasMore s;
     loading := loading s; error := v; selected := selected s; q := q s;
     agency := agency s; docType := docType s; startDate := startDate s;
     endDate := endDate s; bookmarks := bookmarks s |}.

Definition setSelected (v : option Document) (s : AppState) : AppState :=
  {| docs := docs s; page := page s; hasMore := hasMore s;
     loading := loading s; error := error s; selected := v; q := q s;
     agency := agency s; docType := docType s; startDate := startDate s;
     endDate := endDate s; bookmarks := bookmarks s |}.

Definition setQ (v : string) (s : AppState) : AppState :=
  {| docs := docs s; page := page s; hasMore := hasMore s;
     loading := loading s; error := error s; selected := selected s; q := v;
     agency := agency s; docType := docType s; startDate := startDate s;
     endDate := endDate s; bookmarks := bookmarks s |}.

Definition setBookmarks (f : list string → list string) (s : AppState) : AppState :=
  {| docs := docs s; page := page s; hasMore := hasMore s;
     loading := loading s; error := error s; selected := selected s; q := q s;
     agency := agency s; docType := docType s; startDate := startDate s;
     endDate := endDate s; bookmarks := f (bookmarks s) |}.

(** *** Bookmarks *)

Definition isBookmarked (s : AppState) (docNumber : string) : bool :=
  Js.includes docNumber (bookmarks s).

(** The updater that [toggleBookmark] hands to [setBookmarks]. *)
Definition toggle (docNumber : string) (prev : list string) : list string :=
  if Js.includes docNumber prev
  then List.filter (λ n, negb (String.eqb n docNumber)) prev
  else prev ++ [docNumber].

(** The array of document numbers as the JSON value the hook stores. *)
Definition bookmarks_value (l : list string) : Json.json :=
  Json.JArray (map Json.JString l).

(** [toggleBookmark(docNumber)] followed by the effect of the hook, which
    runs because the value changed. *)
Definition toggleBookmark (docNumber : string) (w : AppState * Platform.Storage)
  : AppState * Platform.Storage :=
  let s' := setBookmarks (toggle docNumber) w.1 in
  (s', useLocalStorage_effect BOOKMARKS_KEY (bookmarks_value (bookmarks s')) w.2).

(** *** Fetching *)

(** The [URL] object of [buildUrl] before it is turned into a string. *)
Definition buildUrl_object (s : AppState) (nextPage : N) : Url.URL :=
  let url := Url.new_URL API_BASE in
  let url := Url.searchParams_set "per_page" "20" url in
  let url := Url.searchParams_set "order" "newest" url in
  let url := Url.searchParams_set "page" (Js.String_ nextPage) url in
  if Js.truthy (Js.trim (q s))
  then Url.searchParams_set "conditions[term]" (Js.trim (q s)) url
  else url.

Definition buildUrl (s : AppState) (nextPage : N) : string :=
  Url.toString (buildUrl_object s nextPage).

(** What an event handler runs in: the component state and the requests
    sent so far, oldest first. *)
Record World := { ui : AppState; sent : list string }.

(** An asynchronous function of the component, run to completion. *)
Definition M (A : Type) : Type := World → completion A * World.

#[global] Instance M_ret : MRet M := λ A a w, (Normal a, w).
#[global] Instance M_bind : MBind M := λ A B f m w,
  match m w with
  | (Normal a, w') => f a w'
  | (Throw e, w') => (Throw e, w')
  end.

Definition throw {A} (e : JsError) : M A := λ w, (Throw e, w).

(** The state variables as the running handler's closure sees them. *)
Definition render_closure : M AppState := λ w, (Normal (ui w), w).

(** A call of a state setter. *)
Definition call (set : AppState → AppState) : M unit :=
  λ w, (Normal (), {| ui := set (ui w); sent := sent w |}).

(** [await p] for a promise that settles to [p]. *)
Definition await {A} (p : completion A) : M A := λ w, (p, w).

(** [await fetch(url)] *)
Definition fetch (net : Platform.Network) (url : string) : M Platform.Response :=
  λ w, (Platform.fetch_promise net url,
        {| ui := ui w; sent := sent w ++ [url] |}).

(** [try { body } catch (e) { handler e } finally { fin }] *)
Definition try_catch_finally {A}
    (body : M A) (handler : JsError → M A) (fin : M unit) : M A :=
  λ w,
    let '(r, w1) :=
      match body w with
      | (Normal a, w') => (Normal a, w')
      | (Throw e, w') => handler e w'
      end in
    match fin w1 with
    | (Normal _, w2) => (r, w2)
    | (Throw e, w2) => (Throw e, w2)
    end.

(** The [try] block of [fetchDocs]; [now] holds the state variables of the
    render whose handler is running. *)
Definition fetchDocs_try (net : Platform.Network) (reset : bool) (now : AppState)
  : M unit :=
  let nextPage := if reset then 1%N else (page now + 1)%N in
  res ← fetch net (buildUrl now nextPage);
  (if negb (Platform.ok res)
   then throw (new_Error ("Request failed: " +:+ Js.String_ (Platform.status res)))
   else mret ());;
  data ← await (Platform.json res);
  let items := default [] (data ≫= Platform.results) in
  call (setHasMore (Js.Boolean_number (length items)));;
  call (setPage nextPage);;
  call (setDocs (λ prev, if reset then items else prev ++ items));;
  if reset then call (setSelected None) else mret ().

(** [fetchDocs(reset)] *)
Definition fetchDocs (net : Platform.Network) (reset : bool) : M unit :=
  now ← render_closure;
  call (setLoading true);;
  call (setError "");;
  try_catch_finally
    (fetchDocs_try net reset now)
    (λ e, call (setError (if Js.truthy (message e) then message e
                          else "Unknown error")))
    (call (setLoading false)).

(** The two operations of the result accumulator, as state transformers:
    the search button and the initial load run [fetchDocs(true)], the
    load-more button runs [fetchDocs(false)]. *)
Definition reset_and_load (net : Platform.Network) (w : World) : World :=
  (fetchDocs net true w).2.

Definition load_next_page (net : Platform.Network) (w : World) : World :=
  (fetchDocs net false w).2.

(** *** Derived lists *)

(** [(d.agencies || []).map((a) => a.name)] *)
Definition agency_names (d : Document) : list string :=
  map name (default [] (agencies d)).

(** The callback of [docs.filter] in [filtered]. *)
Definition keep (s : AppState) (d : Document) : bool :=
  if Js.truthy (agency s) && negb (Js.includes (agency s) (agency_names d))
  then false
  else if Js.truthy (docType s) && Js.strict_ne (document_type d) (docType s)
  then false
  else
    let pub := publication_date d in
    if Js.truthy (startDate s) && Js.lt pub (startDate s) then false
    else if Js.truthy (endDate s) && Js.gt pub (endDate s) then false
    else true.

Definition filtered (s : AppState) : list Document :=
  List.filter (keep s) (docs s).

(** The two nested [forEach] loops of [agencyOptions]: every agency name of
    every document is added to [set]. *)
Definition agency_set (l : list Document) (set : list string) : list string :=
  foldl (λ set d, foldl (λ set a, Js.Set_add (name a) set) set
                        (default [] (agencies d)))
        set l.

Definition agencyOptions (s : AppState) : list string :=
  let set := agency_set (docs s) [] in
  Js.sort (Js.Array_from set).

Definition typeOptions (s : AppState) : list string :=
  let set := Js.Set_new (Js.filter_Boolean (map document_type (docs s))) in
  Js.sort (Js.Array_from set).

(** ** The filter predicates in words *)

(** The agency and document-type predicates of the visible subset. *)
Definition agency_ok (s : AppState) (d : Document) : Prop :=
  agency s = "" ∨ agency s ∈ agency_names d.

Definition type_ok (s : AppState) (d : Document) : Prop :=
  docType s = "" ∨ document_type d = Some (docType s).

(** The date predicates read literally: the document has a publication
    date and it lies on the right side of the bound. *)
Definition start_ok (s : AppState) (d : Document) : Prop :=
  startDate s = "" ∨ ∃ p, publication_date d = Some p ∧ String.le (startDate s) p.

Definition end_ok (s : AppState) (d : Document) : Prop :=
  endDate s = "" ∨ ∃ p, publication_date d = Some p ∧ String.le p (endDate s).

Definition satisfies_active_predicates (s : AppState) (d : Document) : Prop :=
  agency_ok s d ∧ type_ok s d ∧ start_ok s d ∧ end_ok s d.

(** The date predicates as [filtered] decides them: a document without a
    publication date is compared with nothing. *)
Definition start_ok_or_undated (s : AppState) (d : Document) : Prop :=
  startDate s = "" ∨
  match publication_date d with
  | Some p => String.le (startDate s) p
  | None => True
  end.

Definition end_ok_or_undated (s : AppState) (d : Document) : Prop :=
  endDate s = "" ∨
  match publication_date d with
  | Some p => String.le p (endDate s)
  | None => True
  end.

Definition passes (s : AppState) (d : Document) : Prop :=
  agency_ok s d ∧ type_ok s d ∧ start_ok_or_undated s d ∧ end_ok_or_undated s d.

(** A publication date is missing when the property is absent or empty. *)
Definition missing_date (d : Document) : Prop :=
  publication_date d = None ∨ publication_date d = Some "".

Definition date_bound_active (s : AppState) : Prop :=
  startDate s ≠ "" ∨ endDate s ≠ "".

(** Sample documents and filter states. *)
Definition undated_doc : Document :=
  {| title := "Notice of meeting"; publication_date := None;
     document_type := Some "Notice"; agencies := None; abstract := None;
     citation := None; document_number := "2024-05001"; html_url := "" |}.

Definition blank_date_doc : Document :=
  {| title := "Notice of meeting"; publication_date := Some "";
     document_type := Some "Notice"; agencies := None; abstract := None;
     citation := None; document_number := "2024-05002"; html_url := "" |}.

Definition rule_doc : Document :=
  {| title := "Final rule"; publication_date := Some "2024-03-15";
     document_type := Some "Rule";
     agencies := Some [ {| name := "Environmental Protection Agency" |} ];
     abstract := None; citation := None; document_number := "2024-05000";
     html_url := "" |}.

Definition start_bound_state : AppState :=
  {| docs := [undated_doc]; page := 1; hasMore := true; loading := false;
     error := ""; selected := None; q := ""; agency := ""; docType := "";
     startDate := "2024-01-01"; endDate := ""; bookmarks := [] |}.

Definition end_bound_state : AppState :=
  {| docs := [blank_date_doc; undated_doc]; page := 1; hasMore := true;
     loading := false; error := ""; selected := None; q := ""; agency := "";
     docType := ""; startDate := ""; endDate := "2024-12-31"; bookmarks := [] |}.

Definition with_filters (docs0 : list Document) (a t from to : string) : AppState :=
  {| docs := docs0; page := 1; hasMore := true; loading := false; error := "";
     selected := None; q := ""; agency := a; docType := t; startDate := from;
     endDate := to; bookmarks := [] |}.

(** ** Outcomes of a request *)

(** The page number [fetchDocs(reset)] asks for. *)
Definition target_page (reset : bool) (s : AppState) : N :=
  if reset then 1%N else (page s + 1)%N.

(** The request to [url] succeeds and its page holds [items]: the status is
    a success status and the body is JSON, [items] being its [results], or
    nothing when the body has none. *)
Definition succeeds_with (net : Platform.Network) (url : string)
    (items : list Document) : Prop :=
  ∃ res data,
    net url = Platform.Responded res ∧ Platform.ok res = true ∧
    Platform.body res = Platform.Parsed data ∧
    items = default [] (data ≫= Platform.results).

(** The request to [url] fails: no response, or a non-success status. *)
Definition fails (net : Platform.Network) (url : string) : Prop :=
  (∃ msg, net url = Platform.NetworkError msg) ∨
  (∃ res, net url = Platform.Responded res ∧ Platform.ok res = false).

(** The state once [fetchDocs(reset)] has gone through with [items]. *)
Definition loaded (reset : bool) (items : list Document) (s : AppState) : AppState :=
  {| docs := if reset then items else docs s ++ items;
     page := target_page reset s;
     hasMore := Js.Boolean_number (length items);
     loading := false; error := "";
     selected := if reset then None else selected s;
     q := q s; agency := agency s; docType := docType s;
     startDate := startDate s; endDate := endDate s;
     bookmarks := bookmarks s |}.

(** The state once [fetchDocs] has caught an error with message [msg]. *)
Definition failed (msg : string) (s : AppState) : AppState :=
  {| docs := docs s; page := page s; hasMore := hasMore s;
     loading := false;
     error := if Js.truthy msg then msg else "Unknown error";
     selected := selected s;
     q := q s; agency := agency s; docType := docType s;
     startDate := startDate s; endDate := endDate s;
     bookmarks := bookmarks s |}.

(** Sample networks: one page holding one rule, a server that answers 503,
    and a success response whose body has no [results]. *)
Definition one_rule_network : Platform.Network :=
  λ _, Platform.Responded
         {| Platform.status := 200;
            Platform.body :=
              Platform.Parsed (Some {| Platform.results := Some [rule_doc] |}) |}.

Definition unavailable_network : Platform.Network :=
  λ _, Platform.Responded
         {| Platform.status := 503; Platform.body := Platform.NotJson "" |}.

Definition no_results_response : Platform.Response :=
  {| Platform.status := 200;
     Platform.body := Platform.Parsed (Some {| Platform.results := None |}) |}.

Definition no_results_network : Platform.Network :=
  λ _, Platform.Responded no_results_response.

(** The world of the first render, nothing sent yet. *)
Definition first_world : World := {| ui := initial_state []; sent := [] |}.

(** Every code unit of [s] satisfies [p]. *)
Fixpoint string_forall (p : ascii → bool) (s : string) : bool :=
  match s with
  | "" => true
  | String a s' => p a && string_forall p s'
  end.

(** A keyword of white space only (the empty keyword is one). *)
Definition all_white_space (s : string) : bool :=
  string_forall Js.is_white_space s.

(** The name of the search-term parameter. *)
Definition TERM : string := "conditions[term]".

(** The text of the elements of an array of strings, as [Json.stringify]
    joins them. *)
Definition joined (l : list string) : string :=
  String.concat "," (map Json.stringify (map Json.JString l)).

(** A store that works and holds nothing yet. *)
Definition empty_storage : Platform.Storage :=
  {| Platform.items := ∅; Platform.readable := true; Platform.writable := true |}.

(** ** The rest of the component *)

(** *** The filter panel *)

Definition setAgency (v : string) (s : AppState) : AppState :=
  {| docs := docs s; page := page s; hasMore := hasMore s;
     loading := loading s; error := error s; selected := selected s; q := q s;
     agency := v; docType := docType s; startDate := startDate s;
     endDate := endDate s; bookmarks := bookmarks s |}.

Definition setDocType (v : string) (s : AppState) : AppState :=
  {| docs := docs s; page := page s; hasMore := hasMore s;
     loading := loading s; error := error s; selected := selected s; q := q s;
     agency := agency s; docType := v; startDate := startDate s;
     endDate := endDate s; bookmarks := bookmarks s |}.

Definition setStartDate (v : string) (s : AppState) : AppState :=
  {| docs := docs s; page := page s; hasMore := hasMore s;
     loading := loading s; error := error s; selected := selected s; q := q s;
     agency := agency s; docType := docType s; startDate := v;
     endDate := endDate s; bookmarks := bookmarks s |}.

Definition setEndDate (v : string) (s : AppState) : AppState :=
  {| docs := docs s; page := page s; hasMore := hasMore s;
     loading := loading s; error := error s; selected := selected s; q := q s;
     agency := agency s; docType := docType s; startDate := startDate s;
     endDate := v; bookmarks := bookmarks s |}.

(** The handler of the button Reset filters: the four setters, each called
    with the empty string. *)
Definition resetFilters (s : AppState) : AppState :=
  setEndDate "" (setStartDate "" (setDocType "" (setAgency "" s))).

(** *** The two buttons that fetch *)

(** [disabled] of the search button and of the load-more button. *)
Definition search_disabled (s : AppState) : bool := loading s.

Definition load_more_disabled (s : AppState) : bool :=
  loading s || negb (hasMore s).

(** A click: a disabled button does not call its handler. *)
Definition click_search (net : Platform.Network) (w : World) : World :=
  if search_disabled (ui w) then w else reset_and_load net w.

Definition click_load_more (net : Platform.Network) (w : World) : World :=
  if load_more_disabled (ui w) then w else load_next_page net w.

(** *** The bookmark strip *)

(** [docs.find((x) => x.document_number === b)] *)
Definition find_doc (b : string) (l : list Document) : option Document :=
  List.find (λ x, String.eqb (document_number x) b) l.

(** What [bookmarks.map] renders in the strip: for each bookmarked number
    the document found for it, or [None] where the callback returns
    [null]. *)
Definition bookmark_strip (s : AppState) : list (option Document) :=
  map (λ b, find_doc b (docs s)) (bookmarks s).

(** *** Sequences of toggles and of pages *)

(** [toggle] applied for each number of [ids] in turn, first to last. *)
Definition toggles (ids : list string) (prev : list string) : list string :=
  foldl (λ acc docNumber, toggle docNumber acc) prev ids.

(** How many of the toggles in [ids] are toggles of [n]. *)
Definition times (n : string) (ids : list string) : nat :=
  length (List.filter (String.eqb n) ids).

(** The load-more button, pressed [k] times in a row, each press handled to
    its end before the next. *)
Definition load_pages (net : Platform.Network) (k : nat) (w : World) : World :=
  Nat.iter k (click_load_more net) w.

(** *** A session of the component *)

(** The component and the store it writes to. *)
Record Session := { world : World; store : Platform.Storage }.

(** What the user can do once the component is mounted.  A click that
    fetches carries the network as it is at that moment. *)
Inductive Event :=
| ClickSearch (net : Platform.Network)
| ClickLoadMore (net : Platform.Network)
| EditKeyword (v : string)
| PickAgency (v : string)
| PickType (v : string)
| PickStart (v : string)
| PickEnd (v : string)
| ClickResetFilters
| ViewDetails (d : Document)
| CloseDetails
| ClickBookmark (docNumber : string).

Definition on_ui (f : AppState → AppState) (σ : Session) : Session :=
  {| world := {| ui := f (ui (world σ)); sent := sent (world σ) |};
     store := store σ |}.

Definition handle (e : Event) (σ : Session) : Session :=
  match e with
  | ClickSearch net =>
      {| world := click_search net (world σ); store := store σ |}
  | ClickLoadMore net =>
      {| world := click_load_more net (world σ); store := store σ |}
  | EditKeyword v => on_ui (setQ v) σ
  | PickAgency v => on_ui (setAgency v) σ
  | PickType v => on_ui (setDocType v) σ
  | PickStart v => on_ui (setStartDate v) σ
  | PickEnd v => on_ui (setEndDate v) σ
  | ClickResetFilters => on_ui resetFilters σ
  | ViewDetails d => on_ui (setSelected (Some d)) σ
  | CloseDetails => on_ui (setSelected None) σ
  | ClickBookmark docNumber =>
      let r := toggleBookmark docNumber (ui (world σ), store σ) in
      {| world := {| ui := r.1; sent := sent (world σ) |}; store := r.2 |}
  end.

Definition run (events : list Event) (σ : Session) : Session :=
  foldl (λ σ e, handle e σ) σ events.

(** Mounting the component with the bookmarks [stored] read at startup: the
    effect of the hook writes them back, and the initial load runs
    [fetchDocs(true)]. *)
Definition mount (net : Platform.Network) (stored : list string)
    (ls : Platform.Storage) : Session :=
  {| world := reset_and_load net {| ui := initial_state stored; sent := [] |};
     store := useLocalStorage_effect BOOKMARKS_KEY (bookmarks_value stored) ls |}.

(** What a session keeps true of its bookmarks: no number twice, and a
    working store holding the text of the current array. *)
Definition bookmarks_durable (σ : Session) : Prop :=
  NoDup (bookmarks (ui (world σ))) ∧
  Platform.readable (store σ) = true ∧ Platform.writable (store σ) = true ∧
  Platform.items (store σ) !! BOOKMARKS_KEY
  = Some (Json.stringify (bookmarks_value (bookmarks (ui (world σ))))).

(** *** Requests in flight *)

(** A call of [fetchDocs] suspended at [await fetch(...)]: its argument,
    the page it computed before the request left, and what the network is
    going to answer. *)
Record Pending := {
  pending_reset : bool;
  pending_page : N;
  pending_outcome : Platform.FetchOutcome
}.

(** The request leaves. *)
Definition request (url : string) : M unit :=
  λ w, (Normal (), {| ui := ui w; sent := sent w ++ [url] |}).

(** The promise of [fetch], once the network has answered with [o]. *)
Definition promise_of (o : Platform.FetchOutcome) : completion Platform.Response :=
  match o with
  | Platform.NetworkError msg =>
      Throw {| error_class := TypeError; message := msg |}
  | Platform.Responded res => Normal res
  end.

(** [fetchDocs(reset)] up to the call of [fetch]: the two flags are set,
    the page is computed from the state of the render, the request
    leaves. *)
Definition fetchDocs_begin (net : Platform.Network) (reset : bool) : M Pending :=
  now ← render_closure;
  call (setLoading true);;
  call (setError "");;
  let nextPage := if reset then 1%N else (page now + 1)%N in
  request (buildUrl now nextPage);;
  mret {| pending_reset := reset; pending_page := nextPage;
          pending_outcome := net (buildUrl now nextPage) |}.

(** The rest of [fetchDocs], run when the answer arrives: what follows
    [await fetch(...)] in the [try] block, then [catch] and [finally]. *)
Definition fetchDocs_resume (p : Pending) : M unit :=
  try_catch_finally
    (res ← await (promise_of (pending_outcome p));
     (if negb (Platform.ok res)
      then throw (new_Error ("Request failed: "
                             +:+ Js.String_ (Platform.status res)))
      else mret ());;
     data ← await (Platform.json res);
     let items := default [] (data ≫= Platform.results) in
     call (setHasMore (Js.Boolean_number (length items)));;
     call (setPage (pending_page p));;
     call (setDocs (λ prev, if pending_reset p then items else prev ++ items));;
     if pending_reset p then call (setSelected None) else mret ())
    (λ e, call (setError (if Js.truthy (message e) then message e
                          else "Unknown error")))
    (call (setLoading false)).

(** The state once a suspended call has gone through with [items]. *)
Definition arrived (p : Pending) (items : list Document) (s : AppState)
  : AppState :=
  {| docs := if pending_reset p then items else docs s ++ items;
     page := pending_page p;
     hasMore := Js.Boolean_number (length items);
     loading := false; error := error s;
     selected := if pending_reset p then None else selected s;
     q := q s; agency := agency s; docType := docType s;
     startDate := startDate s; endDate := endDate s;
     bookmarks := bookmarks s |}.

(** A session with the calls of [fetchDocs] that wait for their answer. *)
Record Live := { session : Session; pending : list Pending }.

(** What happens to a live session: the user does something, or the answer
    to the waiting call number [i] arrives. *)
Inductive LiveEvent :=
| Do (e : Event)
| Arrive (i : nat).

Definition start_fetch (net : Platform.Network) (reset : bool) (ℓ : Live) : Live :=
  match fetchDocs_begin net reset (world (session ℓ)) with
  | (Normal p, w') =>
      {| session := {| world := w'; store := store (session ℓ) |};
         pending := pending ℓ ++ [p] |}
  | (Throw _, w') =>
      {| session := {| world := w'; store := store (session ℓ) |};
         pending := pending ℓ |}
  end.

Definition live_handle (ev : LiveEvent) (ℓ : Live) : Live :=
  match ev with
  | Do (ClickSearch net) =>
      if search_disabled (ui (world (session ℓ))) then ℓ
      else start_fetch net true ℓ
  | Do (ClickLoadMore net) =>
      if load_more_disabled (ui (world (session ℓ))) then ℓ
      else start_fetch net false ℓ
  | Do e => {| session := handle e (session ℓ); pending := pending ℓ |}
  | Arrive i =>
      match pending ℓ !! i with
      | Some p =>
          {| session :=
               {| world := (fetchDocs_resume p (world (session ℓ))).2;
                  store := store (session ℓ) |};
             pending := delete i (pending ℓ) |}
      | None => ℓ
      end
  end.

Definition live_run (events : list LiveEvent) (ℓ : Live) : Live :=
  foldl (λ ℓ ev, live_handle ev ℓ) ℓ events.

(** Mounting, with the initial load still waiting for its answer. *)
Definition live_mount (net : Platform.Network) (stored : list string)
    (ls : Platform.Storage) : Live :=
  start_fetch net true
    {| session :=
         {| world := {| ui := initial_state stored; sent := [] |};
            store := useLocalStorage_effect BOOKMARKS_KEY
                       (bookmarks_value stored) ls |};
       pending := [] |}.

(** What a live session keeps true of its fetching. *)
Definition live_invariant (ℓ : Live) : Prop :=
  length (pending ℓ) ≤ 1 ∧
  (loading (ui (world (session ℓ))) = true ↔ pending ℓ ≠ []) ∧
  (1 ≤ page (ui (world (session ℓ))))%N ∧
  N.to_nat (page (ui (world (session ℓ)))) ≤ length (sent (world (session ℓ))) ∧
  Forall (λ p, (1 ≤ pending_page p)%N ∧
               N.to_nat (pending_page p) ≤ length (sent (world (session ℓ))))
         (pending ℓ) ∧
  Forall (λ u, ∃ s n, (1 ≤ n)%N ∧ u = buildUrl s n) (sent (world (session ℓ))).

(** ** The response body before it is taken for a list of documents *)

(** [res.ok] as a function of the status. *)
Definition status_ok (status : N) : bool :=
  ((200 <=? status) && (status <=? 299))%N.

(** What [res.json()] settles to, with the decoded body as the JSON value it
    is, of whatever shape. *)
Inductive RawBody :=
| NoJson (msg : string)
| JsonValue (data : Json.json).

(** [o[name]] on a decoded object: of two members of one name the later
    one is the one kept; [None] is [undefined]. *)
Fixpoint member (name : string) (members : list (string * Json.json))
  : option Json.json :=
  match members with
  | [] => None
  | (k, v) :: rest =>
      match member name rest with
      | Some v' => Some v'
      | None => if String.eqb k name then Some v else None
      end
  end.

(** [data?.results]: [undefined] for [null]; for a number, a string, a
    boolean or an array the property is not there. *)
Definition optional_results (data : Json.json) : option Json.json :=
  match data with
  | Json.JObject members => member "results" members
  | _ => None
  end.

(** [x ?? []] *)
Definition or_empty_array (x : option Json.json) : Json.json :=
  match x with
  | None | Some Json.JNull => Json.JArray []
  | Some v => v
  end.

(** What the [try] block of [fetchDocs] has in [items] once a response
    with this status and this body has arrived: the status check,
    [res.json()], and [data?.results ?? []]. *)
Definition fetched_items (status : N) (body : RawBody) : completion Json.json :=
  if negb (status_ok status)
  then Throw (new_Error ("Request failed: " +:+ Js.String_ status))
  else
    data ← match body with
           | NoJson msg =>
               Throw {| error_class := SyntaxError; message := msg |}
           | JsonValue data => Normal data
           end;
    Normal (or_empty_array (optional_results data)).

(** The typed payload as the JSON value it stands for. *)
Definition optional_member (name : string) (v : option Json.json)
  : list (string * Json.json) :=
  match v with
  | Some v => [(name, v)]
  | None => []
  end.

Definition agency_value (a : Agency) : Json.json :=
  Json.JObject [("name", Json.JString (name a))].

Definition document_value (d : Document) : Json.json :=
  Json.JObject
    ([("title", Json.JString (title d))]
     ++ optional_member "publication_date" (Json.JString <$> publication_date d)
     ++ optional_member "document_type" (Json.JString <$> document_type d)
     ++ optional_member "agencies"
          ((λ l, Json.JArray (map agency_value l)) <$> agencies d)
     ++ optional_member "abstract" (Json.JString <$> abstract d)
     ++ optional_member "citation" (Json.JString <$> citation d)
     ++ [("document_number", Json.JString (document_number d));
         ("html_url", Json.JString (html_url d))]).

Definition payload_value (data : option Platform.Payload) : Json.json :=
  match data with
  | None => Json.JNull
  | Some p =>
      Json.JObject
        (optional_member "results"
           ((λ l, Json.JArray (map document_value l)) <$> Platform.results p))
  end.

Definition raw_body (b : Platform.Body) : RawBody :=
  match b with
  | Platform.NotJson msg => NoJson msg
  | Platform.Parsed data => JsonValue (payload_value data)
  end.

(** A success response whose [results] is a number. *)
Definition numeric_results : Json.json :=
  Json.JObject [("count", Json.JNumber "0"); ("results", Json.JNumber "5")].

(** A server that answers 200 with a page that is no JSON. *)
Definition html_network : Platform.Network :=
  λ _, Platform.Responded
         {| Platform.status := 200;
            Platform.body := Platform.NotJson "Unexpected token < in JSON" |}.

(** The hook on its first render: the value read, and the store after the
    effect has written that value back. *)
Definition useLocalStorage_mount (key : string) (initialValue : Json.json)
    (ls : Platform.Storage) : Json.json * Platform.Storage :=
  let value := useLocalStorage_init key initialValue ls in
  (value, useLocalStorage_effect key value ls).

(** *** Reading a query back *)

(** How often the code unit [a] occurs in [s]. *)
Fixpoint count_unit (a : ascii) (s : string) : nat :=
  match s with
  | "" => 0
  | String b s' => (if Ascii.eqb a b then 1 else 0) + count_unit a s'
  end.

Definition hex_byte (h1 h2 : ascii) : option N :=
  a ← Json.hex_value h1; b ← Json.hex_value h2; Some (a * 16 + b)%N.

(** The receiving end of [Url.urlencode]: [+] is a space, [%XX] a byte, and
    a two-byte UTF-8 sequence one code unit of the model. *)
Fixpoint urldecode (s : string) : option string :=
  match s with
  | "" => Some ""
  | String c r =>
      if Ascii.eqb c "+" then String " " <$> urldecode r
      else if Ascii.eqb c "%" then
        match r with
        | String h1 (String h2 r1) =>
            match hex_byte h1 h2 with
            | Some b =>
                if (b <? 128)%N then String (ascii_of_N b) <$> urldecode r1
                else if ((192 <=? b) && (b <? 196))%N then
                  match r1 with
                  | String p (String h3 (String h4 r2)) =>
                      match hex_byte h3 h4 with
                      | Some b2 =>
                          if Ascii.eqb p "%" && (128 <=? b2)%N && (b2 <? 192)%N
                          then String (ascii_of_N ((b - 192) * 64 + (b2 - 128)))
                                 <$> urldecode r2
                          else None
                      | None => None
                      end
                  | _ => None
                  end
                else None
            | None => None
            end
        | _ => None
        end
      else String c <$> urldecode r
  end.

(** The code units [Url.urlencode] may write. *)
Definition url_safe (a : ascii) : bool :=
  Url.unreserved (N_of_ascii a) || Ascii.eqb a "%" || Ascii.eqb a "+".

(** The end of the query: the search term when there is one. *)
Definition term_query (t : string) : string :=
  if Js.truthy t then "&conditions%5Bterm%5D=" +:+ Url.urlencode t else "".

(** A text that does not go on with a digit. *)
Definition no_digit_ahead (s : string) : bool :=
  match s with
  | "" => true
  | String a _ => negb (Json.is_digit a)
  end.

(** A keyword without white space at either end. *)
Definition no_outer_white_space (s : string) : Prop := Js.trim s = s.

(** Filter fields that ask for no more than those of [s]: each is empty or
    the one of [s]; the documents are the same. *)
Definition relaxes (s' s : AppState) : Prop :=
  docs s' = docs s ∧
  (agency s' = "" ∨ agency s' = agency s) ∧
  (docType s' = "" ∨ docType s' = docType s) ∧
  (startDate s' = "" ∨ startDate s' = startDate s) ∧
  (endDate s' = "" ∨ endDate s' = endDate s).

(** A date range that ends before it starts. *)
Definition inverted_range_state : AppState :=
  {| docs := [rule_doc; undated_doc]; page := 1; hasMore := true;
     loading := false; error := ""; selected := None; q := ""; agency := "";
     docType := ""; startDate := "2024-12-31"; endDate := "2024-01-01";
     bookmarks := [] |}.

(** A store that cannot be written, holding an earlier list. *)
Definition full_storage : Platform.Storage :=
  {| Platform.items := {[ BOOKMARKS_KEY := "[" +:+ Json.quote "2024-04871" +:+ "]" ]};
     Platform.readable := true; Platform.writable := false |}.

(** A store whose text under the key is no JSON. *)
Definition corrupt_storage : Platform.Storage :=
  {| Platform.items := {[ BOOKMARKS_KEY := "[2024-" ]};
     Platform.readable := true; Platform.writable := true |}.

(** A network that never answers. *)
Definition offline_network : Platform.Network :=
  λ _, Platform.NetworkError "Failed to fetch".

(** ** Facts about the JavaScript primitives *)

Section js_facts.

Lemma truthy_true (s : string) : Js.truthy s = true ↔ s ≠ "".
Proof.
  unfold Js.truthy. rewrite negb_true_iff. apply String.eqb_neq.
Qed.

Lemma truthy_false (s : string) : Js.truthy s = false ↔ s = "".
Proof.
  unfold Js.truthy. rewrite negb_false_iff. apply String.eqb_eq.
Qed.

Lemma includes_elem_of (x : string) (l : list string) :
  Js.includes x l = true ↔ x ∈ l.
Proof.
  unfold Js.includes. rewrite existsb_exists. split.
  - intros (y & Hy & Heq). apply String.eqb_eq in Heq. subst y.
    by apply list_elem_of_In.
  - intros Hx. exists x. split; [by apply list_elem_of_In|].
    apply String.eqb_refl.
Qed.

Lemma includes_not_elem_of (x : string) (l : list string) :
  Js.includes x l = false ↔ x ∉ l.
Proof.
  rewrite <- includes_elem_of. destruct (Js.includes x l); naive_solver.
Qed.

(** [a < b] fails exactly when [b <= a]: the order on strings is total. *)
Lemma ltb_false_le (a b : string) : String.ltb a b = false ↔ String.le b a.
Proof.
  unfold String.le, String.leb, String.ltb.
  rewrite (String.compare_antisym a b).
  destruct (String.compare b a); simpl; naive_solver.
Qed.

Lemma strict_ne_false (x : option string) (y : string) :
  Js.strict_ne x y = false ↔ x = Some y.
Proof.
  destruct x as [a|]; simpl; [|naive_solver].
  rewrite negb_false_iff, String.eqb_eq. naive_solver.
Qed.

End js_facts.

(** ** The visible subset *)

Section visible_subset.

(** The four guards of the callback, one lemma each: a guard lets the
    document through exactly when its predicate holds. *)
Lemma agency_guard (s : AppState) (d : Document) :
  Js.truthy (agency s) && negb (Js.includes (agency s) (agency_names d)) = false
  ↔ agency_ok s d.
Proof.
  unfold agency_ok.
  rewrite andb_false_iff, truthy_false, negb_false_iff, includes_elem_of.
  done.
Qed.

Lemma type_guard (s : AppState) (d : Document) :
  Js.truthy (docType s) && Js.strict_ne (document_type d) (docType s) = false
  ↔ type_ok s d.
Proof.
  unfold type_ok. by rewrite andb_false_iff, truthy_false, strict_ne_false.
Qed.

Lemma start_guard (s : AppState) (d : Document) :
  Js.truthy (startDate s) && Js.lt (publication_date d) (startDate s) = false
  ↔ start_ok_or_undated s d.
Proof.
  unfold start_ok_or_undated. rewrite andb_false_iff, truthy_false.
  destruct (publication_date d) as [p|]; simpl.
  - by rewrite ltb_false_le.
  - naive_solver.
Qed.

Lemma end_guard (s : AppState) (d : Document) :
  Js.truthy (endDate s) && Js.gt (publication_date d) (endDate s) = false
  ↔ end_ok_or_undated s d.
Proof.
  unfold end_ok_or_undated. rewrite andb_false_iff, truthy_false.
  destruct (publication_date d) as [p|]; simpl.
  - by rewrite ltb_false_le.
  - naive_solver.
Qed.

Lemma keep_passes (s : AppState) (d : Document) :
  keep s d = true ↔ passes s d.
Proof.
  unfold passes.
  rewrite <- agency_guard, <- type_guard, <- start_guard, <- end_guard.
  unfold keep. cbv zeta.
  destruct (Js.truthy (agency s) && _); [naive_solver|].
  destruct (Js.truthy (docType s) && _); [naive_solver|].
  destruct (Js.truthy (startDate s) && _); [naive_solver|].
  destruct (Js.truthy (endDate s) && _); naive_solver.
Qed.

Lemma filtered_sublist (s : AppState) : sublist (filtered s) (docs s).
Proof.
  unfold filtered. induction (docs s) as [|d l IH]; simpl; [constructor|].
  destruct (keep s d); by constructor.
Qed.

Lemma elem_of_filtered (s : AppState) (d : Document) :
  d ∈ filtered s ↔ d ∈ docs s ∧ passes s d.
Proof.
  unfold filtered.
  by rewrite <- keep_passes, !list_elem_of_In, filter_In.
Qed.

Lemma le_empty_l (x : string) : String.le "" x.
Proof. by destruct x. Qed.

Lemma le_empty_r (x : string) : String.le x "" ↔ x = "".
Proof. destruct x; [done|]. split; [intros []|done]. Qed.

(** C1 (as amended): the visible subset is a sublist of the loaded list
    and holds exactly the loaded documents that satisfy the four
    predicates, where a date bound is met by every document without a
    publication date and otherwise by comparing the publication date with
    the bound as strings. *)
Theorem filtered_visible_subset (s : AppState) :
  sublist (filtered s) (docs s) ∧
  ∀ d, d ∈ filtered s ↔ d ∈ docs s ∧ passes s d.
Proof.
  split; [apply filtered_sublist|]. intros d. apply elem_of_filtered.
Qed.

(** C1 as stated fails: under an active start date a document without a
    publication date is visible, and it has no publication date on or
    after the bound. *)
Lemma undated_doc_visible_under_start_bound :
  undated_doc ∈ filtered start_bound_state ∧
  ¬ satisfies_active_predicates start_bound_state undated_doc.
Proof.
  split.
  - vm_compute. apply list_elem_of_here.
  - intros (_ & _ & [Hs | (p & Hp & _)] & _); discriminate.
Qed.

(** C2 (as amended): a loaded document without a publication date is
    visible whatever the date bounds are, as soon as it passes the agency
    and type predicates; one whose publication date is the empty string is
    visible when moreover no start date is set, whatever the end date. *)
Theorem missing_date_filtering (s : AppState) (d : Document) :
  d ∈ docs s →
  (publication_date d = None →
     (d ∈ filtered s ↔ agency_ok s d ∧ type_ok s d)) ∧
  (publication_date d = Some "" →
     (d ∈ filtered s ↔ agency_ok s d ∧ type_ok s d ∧ startDate s = "")).
Proof.
  intros Hd. rewrite elem_of_filtered.
  unfold passes, start_ok_or_undated, end_ok_or_undated.
  split; intros ->.
  - tauto.
  - rewrite le_empty_r. pose proof (le_empty_l (endDate s)). tauto.
Qed.

Lemma missing_date_filtering_witness :
  blank_date_doc ∈ docs end_bound_state ∧
  (blank_date_doc ∈ filtered end_bound_state ↔
     agency_ok end_bound_state blank_date_doc ∧
     type_ok end_bound_state blank_date_doc ∧
     startDate end_bound_state = "").
Proof.
  split.
  - apply list_elem_of_here.
  - apply (missing_date_filtering end_bound_state blank_date_doc).
    + apply list_elem_of_here.
    + reflexivity.
Defined.

(** C2 as stated fails: with an end date set, the two documents whose
    publication date is missing stay visible. *)
Lemma missing_date_passes_end_bound :
  date_bound_active end_bound_state ∧
  missing_date blank_date_doc ∧ blank_date_doc ∈ filtered end_bound_state ∧
  missing_date undated_doc ∧ undated_doc ∈ filtered end_bound_state.
Proof.
  split; [by right|].
  split; [by right|]. split; [vm_compute; apply list_elem_of_here|].
  split; [by left|]. vm_compute. apply list_elem_of_further, list_elem_of_here.
Qed.

End visible_subset.

(** ** The facet lists *)

Section facets.

Lemma elem_of_Set_add (x y : string) (s : list string) :
  y ∈ Js.Set_add x s ↔ y = x ∨ y ∈ s.
Proof.
  unfold Js.Set_add. destruct (Js.includes x s) eqn:Hx.
  - apply includes_elem_of in Hx. naive_solver.
  - rewrite elem_of_app, list_elem_of_singleton. tauto.
Qed.

Lemma NoDup_Set_add (x : string) (s : list string) :
  NoDup s → NoDup (Js.Set_add x s).
Proof.
  intros Hs. unfold Js.Set_add. destruct (Js.includes x s) eqn:Hx; [done|].
  apply includes_not_elem_of in Hx. apply NoDup_app. split; [done|].
  split; [|apply NoDup_singleton].
  intros y Hy ->%list_elem_of_singleton. contradiction.
Qed.

(** Adding the elements of a list to a set, one after the other. *)
Lemma elem_of_fold_Set_add {A} (f : A → string) (l : list A)
    (s : list string) (y : string) :
  y ∈ foldl (λ set a, Js.Set_add (f a) set) s l ↔ y ∈ s ∨ y ∈ map f l.
Proof.
  revert s. induction l as [|a l IH]; intros s; simpl.
  - rewrite elem_of_nil. tauto.
  - rewrite IH, elem_of_Set_add, elem_of_cons. tauto.
Qed.

Lemma NoDup_fold_Set_add {A} (f : A → string) (l : list A) (s : list string) :
  NoDup s → NoDup (foldl (λ set a, Js.Set_add (f a) set) s l).
Proof.
  revert s. induction l as [|a l IH]; intros s Hs; simpl; [done|].
  by apply IH, NoDup_Set_add.
Qed.

Lemma elem_of_agency_set (l : list Document) (s : list string) (y : string) :
  y ∈ agency_set l s ↔ y ∈ s ∨ ∃ d, d ∈ l ∧ y ∈ agency_names d.
Proof.
  unfold agency_set. revert s. induction l as [|d l IH]; intros s; simpl.
  - split; [tauto|]. intros [?|(d & Hd & _)]; [done|].
    by apply elem_of_nil in Hd.
  - rewrite IH, elem_of_fold_Set_add. fold (agency_names d). split.
    + intros [[?|?]|(d' & Hd' & Hy)]; [tauto| |].
      * right. exists d. split; [apply list_elem_of_here|done].
      * right. exists d'. split; [by apply list_elem_of_further|done].
    + intros [?|(d' & Hd' & Hy)]; [tauto|].
      apply elem_of_cons in Hd' as [->|Hd']; [tauto|]. right. eauto.
Qed.

Lemma NoDup_agency_set (l : list Document) (s : list string) :
  NoDup s → NoDup (agency_set l s).
Proof.
  unfold agency_set. revert s. induction l as [|d l IH]; intros s Hs; simpl.
  - done.
  - by apply IH, NoDup_fold_Set_add.
Qed.

Lemma elem_of_Set_new (l : list string) (y : string) :
  y ∈ Js.Set_new l ↔ y ∈ l.
Proof.
  unfold Js.Set_new.
  rewrite (elem_of_fold_Set_add id l [] y), list_fmap_id, elem_of_nil. tauto.
Qed.

Lemma NoDup_Set_new (l : list string) : NoDup (Js.Set_new l).
Proof. apply (NoDup_fold_Set_add id l []), NoDup_nil_2. Qed.

Lemma elem_of_filter_Boolean (l : list (option string)) (y : string) :
  y ∈ Js.filter_Boolean l ↔ y ≠ "" ∧ Some y ∈ l.
Proof.
  unfold Js.filter_Boolean. rewrite list_elem_of_omap. split.
  - intros ([x|] & Hx & Hy); simpl in Hy; [|done].
    destruct (Js.truthy x) eqn:Ht; [|done].
    injection Hy as ->. by apply truthy_true in Ht.
  - intros [Hy Hin]. exists (Some y). split; [done|]. simpl.
    apply truthy_true in Hy. by rewrite Hy.
Qed.

(** The default [sort]: a sorted rearrangement of the array. *)
Lemma sort_Permutation (a : list string) : Js.sort a ≡ₚ a.
Proof. apply merge_sort_Permutation. Qed.

Lemma sort_StronglySorted (a : list string) :
  StronglySorted String.le (Js.sort a).
Proof. apply StronglySorted_merge_sort; apply _. Qed.

Lemma elem_of_sort (a : list string) (y : string) : y ∈ Js.sort a ↔ y ∈ a.
Proof. by rewrite sort_Permutation. Qed.

Lemma NoDup_sort (a : list string) : NoDup a → NoDup (Js.sort a).
Proof. by rewrite sort_Permutation. Qed.

(** Whatever algorithm the engine uses, its result is the one of [Js.sort]:
    a sorted rearrangement of an array is unique. *)
Lemma sort_unique (a b : list string) :
  b ≡ₚ a → Sorted String.le b → b = Js.sort a.
Proof.
  intros Hp Hs. apply (Sorted_unique String.le); [done| |].
  - apply Sorted_merge_sort; apply _.
  - by rewrite sort_Permutation.
Qed.

(** C6: both option lists are free of duplicates and sorted in the order
    of strings; the agency options are exactly the agency names that occur
    in the loaded documents, the type options exactly their non-empty
    document types. *)
Theorem facet_options_sorted_distinct (s : AppState) :
  (NoDup (agencyOptions s) ∧ StronglySorted String.le (agencyOptions s) ∧
   ∀ x, x ∈ agencyOptions s ↔ ∃ d, d ∈ docs s ∧ x ∈ agency_names d) ∧
  (NoDup (typeOptions s) ∧ StronglySorted String.le (typeOptions s) ∧
   ∀ x, x ∈ typeOptions s ↔
        x ≠ "" ∧ ∃ d, d ∈ docs s ∧ document_type d = Some x).
Proof.
  unfold agencyOptions, typeOptions, Js.Array_from. cbv zeta.
  split; split_and!.
  - apply NoDup_sort, NoDup_agency_set, NoDup_nil_2.
  - apply sort_StronglySorted.
  - intros x. rewrite elem_of_sort, elem_of_agency_set, elem_of_nil. tauto.
  - apply NoDup_sort, NoDup_Set_new.
  - apply sort_StronglySorted.
  - intros x.
    rewrite elem_of_sort, elem_of_Set_new, elem_of_filter_Boolean,
      list_elem_of_fmap.
    split; intros [Hx (d & Hd & Hin)]; (split; [done|]); exists d; done.
Qed.

End facets.

(** ** Bookmarks *)

Section bookmarks.

Lemma elem_of_toggle_present (x y : string) (l : list string) :
  x ∈ l → y ∈ toggle x l ↔ y ∈ l ∧ y ≠ x.
Proof.
  intros Hx%includes_elem_of. unfold toggle. rewrite Hx.
  rewrite list_elem_of_In, filter_In, <- list_elem_of_In.
  by rewrite negb_true_iff, String.eqb_neq.
Qed.

Lemma elem_of_toggle_absent (x y : string) (l : list string) :
  x ∉ l → y ∈ toggle x l ↔ y ∈ l ∨ y = x.
Proof.
  intros Hx%includes_not_elem_of. unfold toggle. rewrite Hx.
  by rewrite elem_of_app, list_elem_of_singleton.
Qed.

(** Removing the number that was just appended gives the array back. *)
Lemma filter_ne_absent (x : string) (l : list string) :
  x ∉ l → List.filter (λ n, negb (String.eqb n x)) l = l.
Proof.
  induction l as [|a l IH]; intros Hx; simpl; [done|].
  apply not_elem_of_cons in Hx as [Hne Hx].
  apply not_eq_sym, String.eqb_neq in Hne. rewrite Hne. simpl.
  by rewrite IH.
Qed.

Lemma toggle_toggle_absent (x : string) (l : list string) :
  x ∉ l → toggle x (toggle x l) = l.
Proof.
  intros Hx. unfold toggle at 2.
  rewrite (proj2 (includes_not_elem_of x l) Hx).
  unfold toggle.
  assert (Js.includes x (l ++ [x]) = true) as ->.
  { apply includes_elem_of, elem_of_app. right. apply list_elem_of_here. }
  rewrite List.filter_app, filter_ne_absent by done. simpl.
  rewrite String.eqb_refl. simpl. apply app_nil_r.
Qed.

Lemma elem_of_toggle_toggle (x y : string) (l : list string) :
  y ∈ toggle x (toggle x l) ↔ y ∈ l.
Proof.
  destruct (decide (x ∈ l)) as [Hx|Hx].
  - assert (x ∉ toggle x l) as Hx'.
    { rewrite elem_of_toggle_present by done. tauto. }
    rewrite elem_of_toggle_absent, elem_of_toggle_present by done.
    destruct (decide (y = x)) as [->|]; tauto.
  - by rewrite toggle_toggle_absent.
Qed.

Lemma NoDup_toggle (x : string) (l : list string) :
  NoDup l → NoDup (toggle x l).
Proof.
  intros Hl. unfold toggle. destruct (Js.includes x l) eqn:Hx.
  - apply NoDup_ListNoDup, List.NoDup_filter. by apply NoDup_ListNoDup.
  - apply includes_not_elem_of in Hx. apply NoDup_app. split; [done|].
    split; [|apply NoDup_singleton].
    intros y Hy ->%list_elem_of_singleton. contradiction.
Qed.

(** On an array without repetitions, two toggles give a rearrangement. *)
Lemma toggle_toggle_Permutation (x : string) (l : list string) :
  NoDup l → toggle x (toggle x l) ≡ₚ l.
Proof.
  intros Hl. apply NoDup_Permutation; [|done|].
  - by do 2 apply NoDup_toggle.
  - intros y. apply elem_of_toggle_toggle.
Qed.

Lemma toggleBookmark_bookmarks (x : string) (w : AppState * Platform.Storage) :
  bookmarks (toggleBookmark x w).1 = toggle x (bookmarks w.1).
Proof. done. Qed.

(** C7: toggling the same document number twice in a row leaves the set
    of bookmarked numbers as it was, so every document is bookmarked
    afterwards exactly when it was before. *)
Theorem toggleBookmark_twice (docNumber : string)
    (w : AppState * Platform.Storage) :
  list_to_set (bookmarks (toggleBookmark docNumber (toggleBookmark docNumber w)).1)
    =@{gset string} list_to_set (bookmarks w.1) ∧
  ∀ n, isBookmarked (toggleBookmark docNumber (toggleBookmark docNumber w)).1 n
       = isBookmarked w.1 n.
Proof.
  rewrite !toggleBookmark_bookmarks. split.
  - apply set_eq. intros y. rewrite !elem_of_list_to_set.
    apply elem_of_toggle_toggle.
  - intros n. unfold isBookmarked. rewrite !toggleBookmark_bookmarks.
    apply eq_true_iff_eq. rewrite !includes_elem_of.
    apply elem_of_toggle_toggle.
Qed.

End bookmarks.

(** ** The stored bookmarks *)

Section stored_bookmarks.

Lemma string_app_assoc (a b c : string) : (a +:+ b) +:+ c = a +:+ (b +:+ c).
Proof. induction a as [|x a IH]; [done|]. exact (f_equal (String x) IH). Qed.

Lemma string_length_app (a b : string) :
  String.length (a +:+ b) = String.length a + String.length b.
Proof. induction a as [|x a IH]; [done|]. exact (f_equal S IH). Qed.

(** Reading back one quoted code unit. *)
Lemma parse_chars_quote_unit (a : ascii) (tail : string) :
  Json.parse_chars (Json.quote_unit a +:+ tail)
  = Json.push a (Json.parse_chars tail).
Proof. destruct a as [[] [] [] [] [] [] [] []]; reflexivity. Qed.

Lemma parse_chars_quote_units (s tail : string) :
  Json.parse_chars (Json.quote_units s +:+ String Json.DQUOTE tail)
  = Some (s, tail).
Proof.
  induction s as [|a s IH]; [reflexivity|]. simpl Json.quote_units.
  by rewrite string_app_assoc, parse_chars_quote_unit, IH.
Qed.

Lemma bind_Some {A B} (a : A) (f : A → option B) : Some a ≫= f = f a.
Proof. reflexivity. Qed.

Lemma parse_value_string (fuel : nat) (r : string) :
  Json.parse_value (S fuel) (String Json.DQUOTE r)
  = '(str, r') ← Json.parse_chars r; Some (Json.JString str, r').
Proof. reflexivity. Qed.

Lemma parse_value_quote (fuel : nat) (s tail : string) :
  Json.parse_value (S fuel) (Json.quote s +:+ tail) = Some (Json.JString s, tail).
Proof.
  unfold Json.quote.
  change (String Json.DQUOTE (Json.quote_units s +:+ String Json.DQUOTE "") +:+ tail)
    with (String Json.DQUOTE
            ((Json.quote_units s +:+ String Json.DQUOTE "") +:+ tail)).
  rewrite string_app_assoc, parse_value_string.
  change (String Json.DQUOTE "" +:+ tail) with (String Json.DQUOTE tail).
  by rewrite parse_chars_quote_units.
Qed.

Lemma parse_elements_step (fuel : nat) (s : string) :
  Json.parse_elements (S fuel) s
  = '(v, r) ← Json.parse_value fuel s;
    match Json.skip_ws r with
    | String "," r' =>
        '(l, r'') ← Json.parse_elements fuel r'; Some (v :: l, r'')
    | String "]" r' => Some ([v], r')
    | _ => None
    end.
Proof. reflexivity. Qed.

Lemma joined_cons (x y : string) (l : list string) :
  joined (x :: y :: l) = Json.quote x +:+ String "," (joined (y :: l)).
Proof. reflexivity. Qed.

Lemma stringify_bookmarks_value (l : list string) :
  Json.stringify (bookmarks_value l) = String "[" (joined l +:+ "]").
Proof. reflexivity. Qed.

(** Every element text starts with a quote, so the array text is at least
    as long as the array. *)
Lemma joined_starts_with_quote (x : string) (l : list string) :
  ∃ rest, joined (x :: l) = Json.quote x +:+ rest.
Proof.
  destruct l as [|y l].
  - exists "". unfold joined. simpl. symmetry.
    induction (Json.quote x) as [|a s IH]; [done|]. exact (f_equal (String a) IH).
  - eexists. apply joined_cons.
Qed.

Lemma length_joined (l : list string) : length l ≤ String.length (joined l).
Proof.
  induction l as [|x [|y l] IH]; [done|simpl; lia|].
  rewrite joined_cons, string_length_app.
  change (String.length (String "," (joined (y :: l))))
    with (S (String.length (joined (y :: l)))).
  simpl length in *. unfold Json.quote at 1. simpl String.length at 1. lia.
Qed.

(** Reading back the elements of a non-empty array of strings. *)
Lemma parse_elements_joined (l : list string) :
  ∀ (x : string) (fuel : nat) (tail : string),
    length l + 2 ≤ fuel →
    Json.parse_elements fuel (joined (x :: l) +:+ String "]" tail)
    = Some (map Json.JString (x :: l), tail).
Proof.
  induction l as [|y l IH]; intros x fuel tail Hfuel.
  - destruct fuel as [|[|fuel]]; [simpl in Hfuel; lia..|].
    rewrite parse_elements_step.
    change (joined [x]) with (Json.quote x).
    by rewrite parse_value_quote.
  - destruct fuel as [|[|fuel]]; [simpl in Hfuel; lia..|].
    rewrite parse_elements_step, joined_cons, string_app_assoc, parse_value_quote.
    change (String "," (joined (y :: l)) +:+ String "]" tail)
      with (String "," (joined (y :: l) +:+ String "]" tail)).
    rewrite bind_Some. cbv beta iota. simpl Json.skip_ws. cbv iota.
    rewrite IH by (simpl in *; lia). reflexivity.
Qed.

Lemma parse_value_array (fuel : nat) (x rest : string) :
  Json.parse_value (S fuel) (String "[" (Json.quote x +:+ rest))
  = '(l, r') ← Json.parse_elements fuel (Json.quote x +:+ rest);
    Some (Json.JArray l, r').
Proof. reflexivity. Qed.

(** [JSON.parse(JSON.stringify(a))] gives back an array [a] of strings. *)
Lemma parse_stringify_bookmarks (l : list string) :
  Json.parse (Json.stringify (bookmarks_value l)) = Normal (bookmarks_value l).
Proof.
  destruct l as [|x l]; [reflexivity|].
  unfold Json.parse. rewrite stringify_bookmarks_value.
  assert (length l + 2 ≤ String.length (String "[" (joined (x :: l) +:+ "]")))
    as Hfuel.
  { simpl String.length. rewrite string_length_app.
    pose proof (length_joined (x :: l)). simpl in *. lia. }
  revert Hfuel. generalize (String.length (String "[" (joined (x :: l) +:+ "]"))).
  intros fuel Hfuel.
  destruct (joined_starts_with_quote x l) as [rest Hrest].
  rewrite Hrest, string_app_assoc, parse_value_array.
  rewrite <- string_app_assoc, <- Hrest.
  by rewrite parse_elements_joined.
Qed.

(** A successful write is read back as written. *)
Lemma getItem_after_effect (key : string) (v : Json.json) (ls : Platform.Storage) :
  Platform.readable ls = true → Platform.writable ls = true →
  Platform.getItem key (useLocalStorage_effect key v ls)
  = Normal (Some (Json.stringify v)).
Proof.
  intros Hr Hw. unfold useLocalStorage_effect, Platform.setItem. rewrite Hw.
  unfold Platform.getItem. simpl. rewrite Hr. by rewrite lookup_insert_eq.
Qed.

(** The three ways for the startup read to fall back on the initial value. *)
Lemma useLocalStorage_init_absent (key : string) (init : Json.json)
    (ls : Platform.Storage) :
  Platform.getItem key ls = Normal None → useLocalStorage_init key init ls = init.
Proof. intros H. unfold useLocalStorage_init. by rewrite H. Qed.

Lemma useLocalStorage_init_unreadable (key : string) (init : Json.json)
    (ls : Platform.Storage) (e : JsError) :
  Platform.getItem key ls = Throw e → useLocalStorage_init key init ls = init.
Proof. intros H. unfold useLocalStorage_init. by rewrite H. Qed.

Lemma useLocalStorage_init_malformed (key : string) (init : Json.json)
    (ls : Platform.Storage) (raw : string) (e : JsError) :
  Platform.getItem key ls = Normal (Some raw) → Json.parse raw = Throw e →
  useLocalStorage_init key init ls = init.
Proof.
  intros H Hp. unfold useLocalStorage_init. rewrite H. simpl.
  destruct (Js.truthy raw); [by rewrite Hp|done].
Qed.

Lemma useLocalStorage_init_present (key : string) (init : Json.json)
    (ls : Platform.Storage) (raw : string) :
  Platform.getItem key ls = Normal (Some raw) → Js.truthy raw = true →
  useLocalStorage_init key init ls
  = match Json.parse raw with Normal v => v | Throw _ => init end.
Proof.
  intros H Ht. unfold useLocalStorage_init. rewrite H. simpl. by rewrite Ht.
Qed.

(** C8: once the effect of the hook has written a list of bookmarked
    numbers, the startup read gives the same list back, hence the same set;
    and when the key is absent, the store cannot be read, or the stored text
    is no JSON, the startup read gives the empty list, [useLocalStorage_init]
    being a function that never throws. *)
Theorem bookmarks_storage_roundtrip (l : list string) (ls : Platform.Storage) :
  (Platform.readable ls = true → Platform.writable ls = true →
   useLocalStorage_init BOOKMARKS_KEY (bookmarks_value [])
     (useLocalStorage_effect BOOKMARKS_KEY (bookmarks_value l) ls)
   = bookmarks_value l) ∧
  (Platform.getItem BOOKMARKS_KEY ls = Normal None ∨
   (∃ e, Platform.getItem BOOKMARKS_KEY ls = Throw e) ∨
   (∃ raw e, Platform.getItem BOOKMARKS_KEY ls = Normal (Some raw) ∧
             Json.parse raw = Throw e) →
   useLocalStorage_init BOOKMARKS_KEY (bookmarks_value []) ls
   = bookmarks_value []).
Proof.
  split.
  - intros Hr Hw.
    rewrite (useLocalStorage_init_present _ _ _ (Json.stringify (bookmarks_value l))).
    + by rewrite parse_stringify_bookmarks.
    + by apply getItem_after_effect.
    + reflexivity.
  - intros [H|[[e H]|(raw & e & H & Hp)]].
    + by apply useLocalStorage_init_absent.
    + by apply (useLocalStorage_init_unreadable _ _ _ e).
    + by apply (useLocalStorage_init_malformed _ _ _ raw e).
Qed.

(** After a toggle the store holds the new array, when it can be written:
    the durable copy follows the bookmarks. *)
Lemma toggleBookmark_persists (docNumber : string)
    (w : AppState * Platform.Storage) :
  Platform.writable w.2 = true →
  Platform.items (toggleBookmark docNumber w).2 !! BOOKMARKS_KEY
  = Some (Json.stringify (bookmarks_value (bookmarks (toggleBookmark docNumber w).1))).
Proof.
  intros Hw. unfold toggleBookmark, useLocalStorage_effect, Platform.setItem.
  rewrite Hw. simpl. by rewrite lookup_insert_eq.
Qed.

Lemma bookmarks_storage_roundtrip_witness :
  useLocalStorage_init BOOKMARKS_KEY (bookmarks_value [])
    (useLocalStorage_effect BOOKMARKS_KEY
       (bookmarks_value ["2024-05000"; "2024-04871"]) empty_storage)
  = bookmarks_value ["2024-05000"; "2024-04871"] ∧
  useLocalStorage_init BOOKMARKS_KEY (bookmarks_value []) empty_storage
  = bookmarks_value [].
Proof.
  split.
  - apply (bookmarks_storage_roundtrip ["2024-05000"; "2024-04871"] empty_storage);
      reflexivity.
  - apply (bookmarks_storage_roundtrip [] empty_storage). left. reflexivity.
Defined.

End stored_bookmarks.

(** ** The request URL *)

Section request_url.

Lemma trim_end_empty (s : string) :
  Js.trim_end s = "" ↔ all_white_space s = true.
Proof.
  unfold all_white_space. induction s as [|a s IH]; simpl; [done|].
  destruct (Js.is_white_space a); simpl; [|done].
  rewrite <- IH. destruct (Js.trim_end s); simpl; done.
Qed.

Lemma all_white_space_trim_start (s : string) :
  all_white_space (Js.trim_start s) = all_white_space s.
Proof.
  unfold all_white_space. induction s as [|a s IH]; simpl; [done|].
  destruct (Js.is_white_space a) eqn:Ha; simpl; [done|]. by rewrite Ha.
Qed.

(** The keyword is empty after trimming exactly when it holds nothing but
    white space. *)
Lemma trim_empty (s : string) : Js.trim s = "" ↔ all_white_space s = true.
Proof.
  unfold Js.trim. by rewrite trim_end_empty, all_white_space_trim_start.
Qed.

(** The decimal digits of a page number need no escaping in a query. *)
Lemma pretty_N_char_unreserved (x : N) :
  Url.encode_unit (pretty_N_char x) = String (pretty_N_char x) "".
Proof.
  destruct x as [|p]; [reflexivity|].
  do 4 (try (destruct p as [p|p|]); try reflexivity).
Qed.

Lemma urlencode_pretty_N_go (x : N) (s : string) :
  Url.urlencode s = s → Url.urlencode (pretty_N_go x s) = pretty_N_go x s.
Proof.
  revert s. induction (N.lt_wf_0 x) as [x _ IH]. intros s Hs.
  destruct (decide (0 < x)%N) as [Hx|Hx].
  - rewrite pretty_N_go_step by done. apply IH; [by apply N.div_lt|].
    simpl Url.urlencode. by rewrite pretty_N_char_unreserved, Hs.
  - assert (x = 0%N) as -> by lia. by rewrite pretty_N_go_0.
Qed.

Lemma urlencode_String_ (n : N) : Url.urlencode (Js.String_ n) = Js.String_ n.
Proof.
  unfold Js.String_, pretty, pretty_N. destruct (decide (n = 0%N)); [done|].
  by apply urlencode_pretty_N_go.
Qed.

Lemma buildUrl_searchParams (s : AppState) (nextPage : N) :
  Url.searchParams (buildUrl_object s nextPage)
  = [("per_page", "20"); ("order", "newest"); ("page", Js.String_ nextPage)]
    ++ (if Js.truthy (Js.trim (q s)) then [(TERM, Js.trim (q s))] else []).
Proof.
  unfold buildUrl_object. by destruct (Js.truthy (Js.trim (q s))).
Qed.

Lemma buildUrl_base (s : AppState) (nextPage : N) :
  Url.base (buildUrl_object s nextPage) = API_BASE.
Proof.
  unfold buildUrl_object. by destruct (Js.truthy (Js.trim (q s))).
Qed.

(** C9: the request carries [per_page=20], [order=newest] and [page] set to
    the target page, in this order, followed by the search term exactly when
    the keyword is not empty after trimming, and by nothing else; a keyword
    of white space only is empty after trimming. *)
Theorem buildUrl_parameters (s : AppState) (nextPage : N) :
  Url.searchParams (buildUrl_object s nextPage)
  = [("per_page", "20"); ("order", "newest"); ("page", Js.String_ nextPage)]
    ++ (if Js.truthy (Js.trim (q s)) then [(TERM, Js.trim (q s))] else []) ∧
  buildUrl s nextPage
  = (if Js.truthy (Js.trim (q s))
     then API_BASE +:+ "?per_page=20&order=newest&page=" +:+ Js.String_ nextPage
          +:+ "&conditions%5Bterm%5D=" +:+ Url.urlencode (Js.trim (q s))
     else API_BASE +:+ "?per_page=20&order=newest&page=" +:+ Js.String_ nextPage) ∧
  ((∃ v, (TERM, v) ∈ Url.searchParams (buildUrl_object s nextPage))
   ↔ Js.trim (q s) ≠ "") ∧
  (all_white_space (q s) = true ↔ Js.trim (q s) = "").
Proof.
  split_and!.
  - apply buildUrl_searchParams.
  - unfold buildUrl, Url.toString.
    rewrite buildUrl_searchParams, buildUrl_base.
    destruct (Js.truthy (Js.trim (q s)));
      by rewrite <- (urlencode_String_ nextPage) at 2.
  - rewrite buildUrl_searchParams, <- truthy_true.
    destruct (Js.truthy (Js.trim (q s))); simpl.
    + split; [done|]. intros _. exists (Js.trim (q s)).
      do 3 apply list_elem_of_further. apply list_elem_of_here.
    + split; [|done]. intros [v Hv].
      repeat (apply elem_of_cons in Hv as [Hv|Hv]; [discriminate|]).
      by apply elem_of_nil in Hv.
  - symmetry. apply trim_empty.
Qed.

End request_url.

(** ** Fetching and accumulating *)

Section fetching.

(** [fetchDocs] run symbolically: the request it sends, and the state it
    leaves for each outcome of that request. *)
Lemma fetchDocs_run (net : Platform.Network) (reset : bool) (w : World) :
  fetchDocs net reset w
  = (Normal (),
     {| ui :=
          match net (buildUrl (ui w) (target_page reset (ui w))) with
          | Platform.NetworkError msg => failed msg (ui w)
          | Platform.Responded res =>
              if Platform.ok res then
                match Platform.body res with
                | Platform.NotJson msg => failed msg (ui w)
                | Platform.Parsed data =>
                    loaded reset (default [] (data ≫= Platform.results)) (ui w)
                end
              else failed ("Request failed: " +:+ Js.String_ (Platform.status res))
                          (ui w)
          end;
        sent := sent w ++ [buildUrl (ui w) (target_page reset (ui w))] |}).
Proof.
  unfold fetchDocs, fetchDocs_try, try_catch_finally, fetch, call, await, throw,
    render_closure, mbind, M_bind, mret, M_ret, Platform.fetch_promise,
    Platform.json, target_page.
  cbn -[buildUrl Js.String_ String.append].
  destruct reset;
    (destruct (net _) as [msg|res]; [reflexivity|]);
    (destruct (Platform.ok res); [|reflexivity]);
    destruct (Platform.body res); reflexivity.
Qed.

Lemma fetchDocs_success (net : Platform.Network) (reset : bool) (w : World)
    (items : list Document) :
  succeeds_with net (buildUrl (ui w) (target_page reset (ui w))) items →
  (fetchDocs net reset w).2
  = {| ui := loaded reset items (ui w);
       sent := sent w ++ [buildUrl (ui w) (target_page reset (ui w))] |}.
Proof.
  intros (res & data & Hnet & Hok & Hbody & ->).
  by rewrite fetchDocs_run, Hnet, Hok, Hbody.
Qed.

Lemma fetchDocs_failure (net : Platform.Network) (reset : bool) (w : World) :
  fails net (buildUrl (ui w) (target_page reset (ui w))) →
  ∃ msg, (fetchDocs net reset w).2
         = {| ui := failed msg (ui w);
              sent := sent w ++ [buildUrl (ui w) (target_page reset (ui w))] |}.
Proof.
  intros [[msg Hnet]|(res & Hnet & Hok)]; rewrite fetchDocs_run, Hnet.
  - by exists msg.
  - rewrite Hok. by eexists.
Qed.

Lemma Boolean_number_length {A} (l : list A) :
  Js.Boolean_number (length l) = true ↔ l ≠ [].
Proof. by destruct l. Qed.

Lemma failed_error_nonempty (msg : string) (s : AppState) :
  error (failed msg s) ≠ "".
Proof.
  simpl. destruct (Js.truthy msg) eqn:Hm; [|done]. by apply truthy_true.
Qed.

(** C3: a successful reset-and-load asks for page 1, makes the returned
    page the document list, sets the page counter to 1 and clears the
    selected document; a successful load-next-page asks for the page after
    the current one, appends the returned page as it is to the list and
    moves the page counter to that page; in both, the more-available flag
    ends up true exactly when the returned page is not empty. *)
Theorem accumulator_operations (net : Platform.Network) (w : World)
    (items : list Document) :
  (succeeds_with net (buildUrl (ui w) 1) items →
   sent (reset_and_load net w) = sent w ++ [buildUrl (ui w) 1] ∧
   docs (ui (reset_and_load net w)) = items ∧
   page (ui (reset_and_load net w)) = 1%N ∧
   selected (ui (reset_and_load net w)) = None ∧
   (hasMore (ui (reset_and_load net w)) = true ↔ items ≠ [])) ∧
  (succeeds_with net (buildUrl (ui w) (page (ui w) + 1)) items →
   sent (load_next_page net w) = sent w ++ [buildUrl (ui w) (page (ui w) + 1)] ∧
   docs (ui (load_next_page net w)) = docs (ui w) ++ items ∧
   page (ui (load_next_page net w)) = (page (ui w) + 1)%N ∧
   selected (ui (load_next_page net w)) = selected (ui w) ∧
   (hasMore (ui (load_next_page net w)) = true ↔ items ≠ [])).
Proof.
  split; intros Hok.
  - unfold reset_and_load. rewrite (fetchDocs_success net true w items Hok).
    simpl. by rewrite Boolean_number_length.
  - unfold load_next_page. rewrite (fetchDocs_success net false w items Hok).
    simpl. by rewrite Boolean_number_length.
Qed.

Lemma accumulator_operations_witness :
  docs (ui (reset_and_load one_rule_network first_world)) = [rule_doc] ∧
  page (ui (reset_and_load one_rule_network first_world)) = 1%N ∧
  docs (ui (load_next_page one_rule_network
              (reset_and_load one_rule_network first_world)))
  = [rule_doc; rule_doc] ∧
  page (ui (load_next_page one_rule_network
              (reset_and_load one_rule_network first_world))) = 2%N.
Proof.
  assert (succeeds_with one_rule_network (buildUrl (ui first_world) 1) [rule_doc])
    as H1.
  { eexists _, _. repeat split. }
  assert (succeeds_with one_rule_network
            (buildUrl (ui (reset_and_load one_rule_network first_world))
               (page (ui (reset_and_load one_rule_network first_world)) + 1))
            [rule_doc]) as H2.
  { eexists _, _. repeat split. }
  pose proof (proj1 (accumulator_operations one_rule_network first_world
                       [rule_doc]) H1) as (_ & Hd & Hp & _).
  pose proof (proj2 (accumulator_operations one_rule_network
                       (reset_and_load one_rule_network first_world)
                       [rule_doc]) H2) as (_ & Hd' & Hp' & _).
  split; [exact Hd|]. split; [exact Hp|].
  split; [rewrite Hd', Hd; reflexivity|]. rewrite Hp', Hp. reflexivity.
Defined.

(** C4: when the request fails, for want of a response or by a non-success
    status, the document list, the page counter and the more-available flag
    stay as they were and the error message is not empty; a reset-and-load
    that succeeds afterwards empties the error message and makes the
    returned page the document list. *)
Theorem failed_fetch_keeps_results (net : Platform.Network) (reset : bool)
    (w : World) :
  fails net (buildUrl (ui w) (target_page reset (ui w))) →
  (docs (ui (fetchDocs net reset w).2) = docs (ui w) ∧
   page (ui (fetchDocs net reset w).2) = page (ui w) ∧
   hasMore (ui (fetchDocs net reset w).2) = hasMore (ui w) ∧
   error (ui (fetchDocs net reset w).2) ≠ "") ∧
  ∀ (net' : Platform.Network) (items : list Document),
    succeeds_with net' (buildUrl (ui (fetchDocs net reset w).2) 1) items →
    error (ui (reset_and_load net' (fetchDocs net reset w).2)) = "" ∧
    docs (ui (reset_and_load net' (fetchDocs net reset w).2)) = items.
Proof.
  intros Hfail. destruct (fetchDocs_failure net reset w Hfail) as [msg ->].
  split.
  - split_and!; try done. apply failed_error_nonempty.
  - intros net' items Hok. unfold reset_and_load.
    by rewrite (fetchDocs_success net' true _ items Hok).
Qed.

Lemma failed_fetch_keeps_results_witness :
  docs (ui (load_next_page unavailable_network
              (reset_and_load one_rule_network first_world))) = [rule_doc] ∧
  error (ui (load_next_page unavailable_network
               (reset_and_load one_rule_network first_world))) ≠ "".
Proof.
  assert (fails unavailable_network
            (buildUrl (ui (reset_and_load one_rule_network first_world))
               (target_page false
                  (ui (reset_and_load one_rule_network first_world))))) as H.
  { right. eexists. split; reflexivity. }
  pose proof (failed_fetch_keeps_results unavailable_network false
                (reset_and_load one_rule_network first_world) H)
    as [(Hd & _ & _ & He) _].
  split; [exact Hd | exact He].
Defined.

(** The [try] block run symbolically, as far as its completion goes. *)
Lemma fetchDocs_try_completion (net : Platform.Network) (reset : bool)
    (now : AppState) (w : World) :
  (fetchDocs_try net reset now w).1
  = match net (buildUrl now (target_page reset now)) with
    | Platform.NetworkError msg =>
        Throw {| error_class := TypeError; message := msg |}
    | Platform.Responded res =>
        if Platform.ok res then
          match Platform.body res with
          | Platform.NotJson msg =>
              Throw {| error_class := SyntaxError; message := msg |}
          | Platform.Parsed _ => Normal ()
          end
        else Throw (new_Error ("Request failed: "
                               +:+ Js.String_ (Platform.status res)))
    end.
Proof.
  unfold fetchDocs_try, fetch, call, await, throw, mbind, M_bind, mret, M_ret,
    Platform.fetch_promise, Platform.json, target_page.
  cbn -[buildUrl Js.String_ String.append].
  destruct reset;
    (destruct (net _) as [msg|res]; [reflexivity|]);
    (destruct (Platform.ok res); [|reflexivity]);
    destruct (Platform.body res); reflexivity.
Qed.

(** On the typed payload: for a response that arrived, the [try] block
    throws the error made
    from the status code exactly when the status is no success status, and
    the message shown is then that error's; on a success status a body that
    is [null] or no object, or an object without [results], counts as a page
    without items: nothing is thrown, the error message stays empty and no
    document is added. *)
Theorem request_error_iff_not_ok (net : Platform.Network) (reset : bool)
    (w : World) (res : Platform.Response) :
  net (buildUrl (ui w) (target_page reset (ui w))) = Platform.Responded res →
  ((fetchDocs_try net reset (ui w) w).1
   = Throw (new_Error ("Request failed: " +:+ Js.String_ (Platform.status res)))
   ↔ Platform.ok res = false) ∧
  (Platform.ok res = false →
   error (ui (fetchDocs net reset w).2)
   = "Request failed: " +:+ Js.String_ (Platform.status res)) ∧
  (Platform.ok res = true →
   Platform.body res = Platform.Parsed None ∨
   Platform.body res = Platform.Parsed (Some {| Platform.results := None |}) →
   (fetchDocs_try net reset (ui w) w).1 = Normal () ∧
   error (ui (fetchDocs net reset w).2) = "" ∧
   docs (ui (fetchDocs net reset w).2) = (if reset then [] else docs (ui w)) ∧
   hasMore (ui (fetchDocs net reset w).2) = false).
Proof.
  intros Hnet. rewrite fetchDocs_try_completion, fetchDocs_run, Hnet.
  split_and!.
  - destruct (Platform.ok res); [|done].
    destruct (Platform.body res); split; discriminate.
  - by intros ->.
  - intros -> [-> | ->]; simpl; destruct reset; by rewrite ?app_nil_r.
Qed.

Lemma request_error_iff_not_ok_witness :
  (fetchDocs_try no_results_network true (ui first_world) first_world).1
  = Normal () ∧
  docs (ui (fetchDocs no_results_network true first_world).2) = [] ∧
  hasMore (ui (fetchDocs no_results_network true first_world).2) = false.
Proof.
  pose proof (request_error_iff_not_ok no_results_network true first_world
                no_results_response eq_refl) as (_ & _ & H).
  destruct (H eq_refl (or_intror eq_refl)) as (Ht & _ & Hd & Hm).
  split; [exact Ht|]. split; [exact Hd | exact Hm].
Defined.

(** The text of a request: the endpoint, the three fixed parameters, and
    the keyword of the state, trimmed and escaped, when it is not empty. *)
Lemma buildUrl_text (s : AppState) (nextPage : N) :
  buildUrl s nextPage
  = if Js.truthy (Js.trim (q s))
    then API_BASE +:+ "?per_page=20&order=newest&page=" +:+ Js.String_ nextPage
         +:+ "&conditions%5Bterm%5D=" +:+ Url.urlencode (Js.trim (q s))
    else API_BASE +:+ "?per_page=20&order=newest&page=" +:+ Js.String_ nextPage.
Proof.
  unfold buildUrl, Url.toString.
  rewrite buildUrl_searchParams, buildUrl_base.
  destruct (Js.truthy (Js.trim (q s)));
    by rewrite <- (urlencode_String_ nextPage) at 2.
Qed.

(** C10: load-next-page reads the keyword field as it is when the call is
    made.  After the field has been edited to [kw] with no new search, the
    one request it sends is, as a text, the endpoint with [page] set to the
    page after the current one and with [kw], trimmed and escaped, as the
    search term (or with no search term when [kw] is white space only),
    whatever keyword the loaded documents were searched with; its
    parameters are those of [kw]; and on success the page returned for it
    is appended to the documents that were loaded before. *)
Theorem load_next_page_uses_current_keyword (net : Platform.Network)
    (w : World) (kw : string) :
  sent (load_next_page net {| ui := setQ kw (ui w); sent := sent w |})
  = sent w ++
    [if Js.truthy (Js.trim kw)
     then API_BASE +:+ "?per_page=20&order=newest&page="
          +:+ Js.String_ (page (ui w) + 1)
          +:+ "&conditions%5Bterm%5D=" +:+ Url.urlencode (Js.trim kw)
     else API_BASE +:+ "?per_page=20&order=newest&page="
          +:+ Js.String_ (page (ui w) + 1)] ∧
  sent (load_next_page net {| ui := setQ kw (ui w); sent := sent w |})
  = sent w ++ [buildUrl (setQ kw (ui w)) (page (ui w) + 1)] ∧
  Url.searchParams (buildUrl_object (setQ kw (ui w)) (page (ui w) + 1))
  = [("per_page", "20"); ("order", "newest");
     ("page", Js.String_ (page (ui w) + 1))]
    ++ (if Js.truthy (Js.trim kw) then [(TERM, Js.trim kw)] else []) ∧
  ∀ items,
    succeeds_with net (buildUrl (setQ kw (ui w)) (page (ui w) + 1)) items →
    docs (ui (load_next_page net {| ui := setQ kw (ui w); sent := sent w |}))
    = docs (ui w) ++ items.
Proof.
  split_and!.
  - unfold load_next_page. rewrite fetchDocs_run. cbn [snd sent ui].
    unfold target_page. cbn [page setQ]. by rewrite buildUrl_text.
  - unfold load_next_page. by rewrite fetchDocs_run.
  - apply buildUrl_searchParams.
  - intros items Hok. unfold load_next_page.
    by rewrite (fetchDocs_success net false
                  {| ui := setQ kw (ui w); sent := sent w |} items Hok).
Qed.

End fetching.

(** ** Worked examples *)

Section examples.

(** [API_BASE] has neither a query nor a fragment, as [Url.new_URL] wants. *)
Example API_BASE_plain :
  string_forall (λ a, negb (Ascii.eqb a "?") && negb (Ascii.eqb a "#")) API_BASE
  = true.
Proof. reflexivity. Qed.

Example buildUrl_keyword :
  buildUrl (setQ "  clean air " (initial_state [])) 3
  = "https://www.federalregister.gov/api/v1/documents.json?per_page=20&order=newest&page=3&conditions%5Bterm%5D=clean+air".
Proof. reflexivity. Qed.

Example buildUrl_blank_keyword :
  buildUrl (setQ "   " (initial_state [])) 1
  = "https://www.federalregister.gov/api/v1/documents.json?per_page=20&order=newest&page=1".
Proof. reflexivity. Qed.

(** A document published on 2024-03-15 passes the range 2024-01-01 to
    2024-12-31 and fails a start date of 2024-04-01. *)
Example date_range_scenario :
  filtered (with_filters [rule_doc] "" "" "2024-01-01" "2024-12-31") = [rule_doc] ∧
  filtered (with_filters [rule_doc] "" "" "2024-04-01" "") = [].
Proof. split; reflexivity. Qed.

(** Twenty rules: the one type option is Rule, which shows all twenty;
    Notice shows none. *)
Example type_filter_scenario :
  typeOptions (with_filters (replicate 20 rule_doc) "" "" "" "") = ["Rule"] ∧
  length (filtered (with_filters (replicate 20 rule_doc) "" "Rule" "" "")) = 20 ∧
  filtered (with_filters (replicate 20 rule_doc) "" "Notice" "" "") = [].
Proof. split_and!; reflexivity. Qed.

(** A bookmark survives a reload, and so does its removal. *)
Example bookmark_reload_scenario :
  useLocalStorage_init BOOKMARKS_KEY (bookmarks_value [])
    (toggleBookmark "2024-05000" (initial_state [], empty_storage)).2
  = bookmarks_value ["2024-05000"] ∧
  useLocalStorage_init BOOKMARKS_KEY (bookmarks_value [])
    (toggleBookmark "2024-05000"
       (toggleBookmark "2024-05000" (initial_state [], empty_storage))).2
  = bookmarks_value [].
Proof. split; vm_compute; reflexivity. Qed.

(** Stored text that is JSON of another shape is handed on as it is; text
    that is no JSON gives the initial value. *)
Example not_found_scenario :
  error (ui (reset_and_load
               (λ _, Platform.Responded
                       {| Platform.status := 404;
                          Platform.body := Platform.NotJson "" |})
               first_world))
  = "Request failed: 404".
Proof. reflexivity. Qed.

Example stored_text_scenarios :
  Json.parse "{}" = Normal (Json.JObject []) ∧
  Json.parse " [ 1 , [ ] ] "
  = Normal (Json.JArray [Json.JNumber "1"; Json.JArray []]) ∧
  Json.parse "[1,]" = Throw Json.syntax_error ∧
  Json.parse "regx" = Throw Json.syntax_error.
Proof. split_and!; reflexivity. Qed.

End examples.

(** ** More on bookmarks *)

Section more_bookmarks.

(** One toggle flips the number toggled and leaves every other number. *)
Lemma includes_toggle (x n : string) (l : list string) :
  Js.includes n (toggle x l)
  = if String.eqb n x then negb (Js.includes x l) else Js.includes n l.
Proof.
  apply eq_true_iff_eq.
  destruct (String.eqb_spec n x) as [->|Hne].
  - rewrite negb_true_iff, includes_elem_of, includes_not_elem_of.
    destruct (decide (x ∈ l)) as [Hx|Hx].
    + rewrite elem_of_toggle_present by done. tauto.
    + rewrite elem_of_toggle_absent by done. tauto.
  - rewrite !includes_elem_of.
    destruct (decide (x ∈ l)) as [Hx|Hx].
    + rewrite elem_of_toggle_present by done. tauto.
    + rewrite elem_of_toggle_absent by done. tauto.
Qed.

(** X1: after any sequence of toggles, a number is bookmarked exactly when
    it was bookmarked before and toggled an even number of times, or was
    not and toggled an odd number of times. *)
Theorem toggles_parity (ids prev : list string) (n : string) :
  Js.includes n (toggles ids prev)
  = xorb (Js.includes n prev) (Nat.odd (times n ids)).
Proof.
  unfold toggles, times. revert prev.
  induction ids as [|x ids IH]; intros prev; simpl.
  - by rewrite xorb_false_r.
  - rewrite IH, includes_toggle.
    destruct (String.eqb_spec n x) as [->|Hne]; [|done].
    simpl length. rewrite Nat.odd_succ, <- Nat.negb_odd.
    by destruct (Js.includes x prev), (Nat.odd _).
Qed.

(** A call of [fetchDocs] ends in one of two ways: the request succeeded
    and the state is [loaded], or it did not and the state is [failed]. *)
Lemma fetchDocs_outcome (net : Platform.Network) (reset : bool) (w : World) :
  (∃ items,
     succeeds_with net (buildUrl (ui w) (target_page reset (ui w))) items ∧
     ui (fetchDocs net reset w).2 = loaded reset items (ui w)) ∨
  (∃ msg,
     (¬ ∃ items,
          succeeds_with net (buildUrl (ui w) (target_page reset (ui w))) items) ∧
     ui (fetchDocs net reset w).2 = failed msg (ui w)).
Proof.
  rewrite fetchDocs_run. simpl.
  destruct (net _) as [msg|res] eqn:Hnet.
  - right. exists msg. split; [|done].
    intros (items & res & data & Hnet' & _). congruence.
  - destruct (Platform.ok res) eqn:Hok.
    + destruct (Platform.body res) as [msg|data] eqn:Hbody.
      * right. exists msg. split; [|done].
        intros (items & res' & data & Hnet' & _ & Hbody' & _).
        rewrite Hnet in Hnet'. injection Hnet' as <-. congruence.
      * left. eexists. split; [|done]. by exists res, data.
    + right. eexists. split; [|done].
      intros (items & res' & data & Hnet' & Hok' & _).
      rewrite Hnet in Hnet'. injection Hnet' as <-. congruence.
Qed.

Lemma fetchDocs_sent (net : Platform.Network) (reset : bool) (w : World) :
  sent (fetchDocs net reset w).2
  = sent w ++ [buildUrl (ui w) (target_page reset (ui w))].
Proof. by rewrite fetchDocs_run. Qed.

Lemma fetchDocs_bookmarks (net : Platform.Network) (reset : bool) (w : World) :
  bookmarks (ui (fetchDocs net reset w).2) = bookmarks (ui w).
Proof.
  destruct (fetchDocs_outcome net reset w) as [(? & _ & ->)|(? & _ & ->)]; done.
Qed.

Lemma handle_bookmarks_durable (e : Event) (σ : Session) :
  bookmarks_durable σ → bookmarks_durable (handle e σ).
Proof.
  intros (Hnd & Hr & Hw & Hm). unfold bookmarks_durable.
  destruct e; simpl; try done.
  - unfold click_search. destruct (search_disabled _); [done|].
    unfold reset_and_load. by rewrite fetchDocs_bookmarks.
  - unfold click_load_more. destruct (load_more_disabled _); [done|].
    unfold load_next_page. by rewrite fetchDocs_bookmarks.
  - unfold useLocalStorage_effect, Platform.setItem. rewrite Hw. simpl.
    split_and!; try done.
    + by apply NoDup_toggle.
    + by rewrite lookup_insert_eq.
Qed.

Lemma run_bookmarks_durable (events : list Event) (σ : Session) :
  bookmarks_durable σ → bookmarks_durable (run events σ).
Proof.
  unfold run. revert σ. induction events as [|e events IH]; intros σ Hσ; simpl.
  - done.
  - by apply IH, handle_bookmarks_durable.
Qed.

Lemma mount_bookmarks_durable (net : Platform.Network) (stored : list string)
    (ls : Platform.Storage) :
  NoDup stored → Platform.readable ls = true → Platform.writable ls = true →
  bookmarks_durable (mount net stored ls).
Proof.
  intros Hnd Hr Hw. unfold bookmarks_durable, mount. simpl.
  unfold reset_and_load. rewrite fetchDocs_bookmarks. simpl.
  unfold useLocalStorage_effect, Platform.setItem. rewrite Hw. simpl.
  split_and!; try done. by rewrite lookup_insert_eq.
Qed.

(** X2: in a session that starts from a working store and a stored list
    without repetitions, whatever the user does and whatever the network
    answers, no number is bookmarked twice and a fresh startup read of the
    store gives exactly the bookmarks in memory. *)
Theorem session_bookmarks_durable (net : Platform.Network)
    (stored : list string) (ls : Platform.Storage) (events : list Event) :
  NoDup stored → Platform.readable ls = true → Platform.writable ls = true →
  NoDup (bookmarks (ui (world (run events (mount net stored ls))))) ∧
  useLocalStorage_init BOOKMARKS_KEY (bookmarks_value [])
    (store (run events (mount net stored ls)))
  = bookmarks_value (bookmarks (ui (world (run events (mount net stored ls))))).
Proof.
  intros Hnd Hr Hw.
  destruct (run_bookmarks_durable events _
              (mount_bookmarks_durable net stored ls Hnd Hr Hw))
    as (Hnd' & Hr' & Hw' & Hm).
  split; [done|].
  rewrite (useLocalStorage_init_present _ _ _
             (Json.stringify (bookmarks_value
                (bookmarks (ui (world (run events (mount net stored ls)))))))).
  - by rewrite parse_stringify_bookmarks.
  - unfold Platform.getItem. by rewrite Hr', Hm.
  - reflexivity.
Qed.

Lemma session_bookmarks_durable_witness :
  bookmarks (ui (world (run [ClickBookmark "2024-05000"; EditKeyword "air";
                             ClickSearch unavailable_network;
                             ClickBookmark "2024-04871";
                             ClickBookmark "2024-05000"]
                          (mount one_rule_network [] empty_storage))))
  = ["2024-04871"] ∧
  useLocalStorage_init BOOKMARKS_KEY (bookmarks_value [])
    (store (run [ClickBookmark "2024-05000"; EditKeyword "air";
                 ClickSearch unavailable_network;
                 ClickBookmark "2024-04871";
                 ClickBookmark "2024-05000"]
              (mount one_rule_network [] empty_storage)))
  = bookmarks_value ["2024-04871"].
Proof.
  split; [reflexivity|].
  apply (session_bookmarks_durable one_rule_network [] empty_storage
           [ClickBookmark "2024-05000"; EditKeyword "air";
            ClickSearch unavailable_network;
            ClickBookmark "2024-04871";
            ClickBookmark "2024-05000"]).
  - apply NoDup_nil_2.
  - reflexivity.
  - reflexivity.
Defined.

(** X3: when the store refuses the write, a toggle still changes the
    bookmarks in memory, but the store stays as it was and no error is
    shown: a startup read afterwards gives what it gave before the toggle. *)
Theorem toggleBookmark_unwritable (docNumber : string) (s : AppState)
    (ls : Platform.Storage) :
  Platform.writable ls = false →
  bookmarks (toggleBookmark docNumber (s, ls)).1 = toggle docNumber (bookmarks s) ∧
  error (toggleBookmark docNumber (s, ls)).1 = error s ∧
  (toggleBookmark docNumber (s, ls)).2 = ls ∧
  useLocalStorage_init BOOKMARKS_KEY (bookmarks_value [])
    (toggleBookmark docNumber (s, ls)).2
  = useLocalStorage_init BOOKMARKS_KEY (bookmarks_value []) ls.
Proof.
  intros Hw.
  assert ((toggleBookmark docNumber (s, ls)).2 = ls) as Hls.
  { unfold toggleBookmark, useLocalStorage_effect, Platform.setItem. simpl.
    by rewrite Hw. }
  rewrite Hls. done.
Qed.

Lemma toggleBookmark_unwritable_witness :
  bookmarks (toggleBookmark "2024-05000" (initial_state ["2024-04871"],
                                          full_storage)).1
  = ["2024-04871"; "2024-05000"] ∧
  useLocalStorage_init BOOKMARKS_KEY (bookmarks_value [])
    (toggleBookmark "2024-05000" (initial_state ["2024-04871"], full_storage)).2
  = bookmarks_value ["2024-04871"].
Proof.
  destruct (toggleBookmark_unwritable "2024-05000"
              (initial_state ["2024-04871"]) full_storage eq_refl)
    as (Hb & _ & _ & Hr).
  split; [exact Hb|]. rewrite Hr. reflexivity.
Defined.

(** X4: mounting the hook over a working store whose text under the key is
    missing or is no JSON gives the initial value, and the effect then
    writes the text of that value: for the bookmarks the store holds an
    empty array afterwards, which the next startup reads without falling
    back. *)
Theorem useLocalStorage_mount_heals (ls : Platform.Storage) :
  Platform.readable ls = true → Platform.writable ls = true →
  (Platform.items ls !! BOOKMARKS_KEY = None ∨
   ∃ raw e, Platform.items ls !! BOOKMARKS_KEY = Some raw ∧
            Json.parse raw = Throw e) →
  (useLocalStorage_mount BOOKMARKS_KEY (bookmarks_value []) ls).1
  = bookmarks_value [] ∧
  Platform.items (useLocalStorage_mount BOOKMARKS_KEY (bookmarks_value []) ls).2
    !! BOOKMARKS_KEY = Some "[]" ∧
  Json.parse "[]" = Normal (bookmarks_value []).
Proof.
  intros Hr Hw Hbad. unfold useLocalStorage_mount.
  assert (useLocalStorage_init BOOKMARKS_KEY (bookmarks_value []) ls
          = bookmarks_value []) as ->.
  { destruct Hbad as [Hnone|(raw & e & Hraw & Hparse)].
    - apply useLocalStorage_init_absent. unfold Platform.getItem.
      by rewrite Hr, Hnone.
    - apply (useLocalStorage_init_malformed _ _ _ raw e); [|done].
      unfold Platform.getItem. by rewrite Hr, Hraw. }
  split; [done|]. split; [|done].
  unfold useLocalStorage_effect, Platform.setItem. rewrite Hw. simpl.
  by rewrite lookup_insert_eq.
Qed.

Lemma useLocalStorage_mount_heals_witness :
  (useLocalStorage_mount BOOKMARKS_KEY (bookmarks_value []) corrupt_storage).1
  = bookmarks_value [] ∧
  Platform.items
    (useLocalStorage_mount BOOKMARKS_KEY (bookmarks_value []) corrupt_storage).2
    !! BOOKMARKS_KEY = Some "[]".
Proof.
  destruct (useLocalStorage_mount_heals corrupt_storage eq_refl eq_refl)
    as (Hv & Hs & _).
  - right. exists "[2024-", Json.syntax_error. split; reflexivity.
  - split; [exact Hv | exact Hs].
Defined.

End more_bookmarks.

(** ** More on the request URL *)

Section more_request_url.

Lemma string_app_empty_r (s : string) : s +:+ "" = s.
Proof. induction s as [|a s IH]; [done|]. exact (f_equal (String a) IH). Qed.

(** The request URL as one text: a fixed head, the page number, and the
    search term when there is one. *)
Lemma buildUrl_string (s : AppState) (nextPage : N) :
  buildUrl s nextPage
  = (API_BASE +:+ "?per_page=20&order=newest&page=")
    +:+ (Js.String_ nextPage +:+ term_query (Js.trim (q s))).
Proof.
  unfold buildUrl, Url.toString, term_query.
  rewrite buildUrl_searchParams, buildUrl_base.
  destruct (Js.truthy (Js.trim (q s))).
  - by rewrite <- (urlencode_String_ nextPage) at 2.
  - rewrite string_app_empty_r. by rewrite <- (urlencode_String_ nextPage) at 2.
Qed.

Lemma urldecode_encode_unit (a : ascii) (r : string) :
  urldecode (Url.encode_unit a +:+ r) = String a <$> urldecode r.
Proof. destruct a as [[] [] [] [] [] [] [] []]; reflexivity. Qed.

(** Nothing of a keyword is lost in the query: it can be read back. *)
Lemma urldecode_urlencode (s : string) : urldecode (Url.urlencode s) = Some s.
Proof.
  induction s as [|a s IH]; [done|]. simpl Url.urlencode.
  by rewrite urldecode_encode_unit, IH.
Qed.

Lemma urlencode_inj (s t : string) : Url.urlencode s = Url.urlencode t → s = t.
Proof.
  intros H. apply (f_equal urldecode) in H.
  rewrite !urldecode_urlencode in H. by injection H.
Qed.

Lemma pretty_N_char_digit (x : N) : Json.is_digit (pretty_N_char x) = true.
Proof.
  destruct x as [|p]; [reflexivity|].
  do 4 (try (destruct p as [p|p|]); try reflexivity).
Qed.

Lemma pretty_N_go_digits (x : N) (s : string) :
  string_forall Json.is_digit s = true →
  string_forall Json.is_digit (pretty_N_go x s) = true.
Proof.
  revert s. induction (N.lt_wf_0 x) as [x _ IH]. intros s Hs.
  destruct (decide (0 < x)%N) as [Hx|Hx].
  - rewrite pretty_N_go_step by done. apply IH; [by apply N.div_lt|].
    simpl. by rewrite pretty_N_char_digit, Hs.
  - assert (x = 0%N) as -> by lia. by rewrite pretty_N_go_0.
Qed.

Lemma String_digits (n : N) : string_forall Json.is_digit (Js.String_ n) = true.
Proof.
  unfold Js.String_, pretty, pretty_N. destruct (decide (n = 0%N)); [done|].
  by apply pretty_N_go_digits.
Qed.

(** Two numbers written in digits, each followed by something that is no
    digit: where the texts agree, the numbers and what follows agree. *)
Lemma digits_then_rest (a b r r' : string) :
  string_forall Json.is_digit a = true → string_forall Json.is_digit b = true →
  no_digit_ahead r = true → no_digit_ahead r' = true →
  a +:+ r = b +:+ r' → a = b ∧ r = r'.
Proof.
  revert b. induction a as [|c a IH]; intros [|d b] Ha Hb Hr Hr' Heq.
  - done.
  - exfalso. change ("" +:+ r) with r in Heq. subst r. simpl in Hr, Hb.
    apply andb_true_iff in Hb as [Hd _]. by rewrite Hd in Hr.
  - exfalso. change ("" +:+ r') with r' in Heq. subst r'. simpl in Hr', Ha.
    apply andb_true_iff in Ha as [Hc _]. by rewrite Hc in Hr'.
  - change (String c (a +:+ r) = String d (b +:+ r')) in Heq.
    injection Heq as -> Heq. simpl in Ha, Hb.
    apply andb_true_iff in Ha as [_ Ha]. apply andb_true_iff in Hb as [_ Hb].
    destruct (IH b Ha Hb Hr Hr' Heq) as [-> ->]. done.
Qed.

Lemma term_query_no_digit_ahead (t : string) :
  no_digit_ahead (term_query t) = true.
Proof. unfold term_query. by destruct (Js.truthy t). Qed.

Lemma term_query_inj (t t' : string) : term_query t = term_query t' → t = t'.
Proof.
  unfold term_query.
  destruct (Js.truthy t) eqn:Ht, (Js.truthy t') eqn:Ht'; intros H.
  - apply (inj (String.append _)) in H. by apply urlencode_inj.
  - discriminate.
  - discriminate.
  - apply truthy_false in Ht, Ht'. congruence.
Qed.

(** X5: for keywords within the code units of the model (U+0000 to
    U+00FF), two requests are the same exactly when they ask for the same
    page of the same keyword, white space at its ends apart: no two pages
    and no two such trimmed keywords share a URL.  (Outside that range the
    platform writes a lone surrogate as U+FFFD, and two keywords that
    differ only there share a URL.) *)
Theorem buildUrl_injective (s s' : AppState) (n n' : N) :
  buildUrl s n = buildUrl s' n' ↔ n = n' ∧ Js.trim (q s) = Js.trim (q s').
Proof.
  rewrite !buildUrl_string. split.
  - intros H. apply (inj (String.append _)) in H.
    apply digits_then_rest in H as [Hn Ht];
      auto using String_digits, term_query_no_digit_ahead.
    split; [|by apply term_query_inj].
    unfold Js.String_ in Hn. by apply (inj pretty) in Hn.
  - by intros [-> ->].
Qed.

Lemma count_unit_app (a : ascii) (s t : string) :
  count_unit a (s +:+ t) = count_unit a s + count_unit a t.
Proof.
  induction s as [|b s IH]; [done|].
  change (count_unit a (String b (s +:+ t))
          = count_unit a (String b s) + count_unit a t).
  simpl. rewrite IH. lia.
Qed.

Lemma encode_unit_safe (a : ascii) :
  string_forall url_safe (Url.encode_unit a) = true.
Proof. destruct a as [[] [] [] [] [] [] [] []]; reflexivity. Qed.

Lemma string_forall_app (p : ascii → bool) (s t : string) :
  string_forall p (s +:+ t) = string_forall p s && string_forall p t.
Proof.
  induction s as [|b s IH]; [done|].
  change (string_forall p (String b (s +:+ t))
          = string_forall p (String b s) && string_forall p t).
  simpl. by rewrite IH, andb_assoc.
Qed.

Lemma urlencode_safe (s : string) :
  string_forall url_safe (Url.urlencode s) = true.
Proof.
  induction s as [|a s IH]; [done|]. simpl Url.urlencode.
  by rewrite string_forall_app, encode_unit_safe, IH.
Qed.

(** A code unit that [Url.urlencode] never writes does not occur in what it
    writes. *)
Lemma count_unit_unsafe (a : ascii) (s : string) :
  url_safe a = false → string_forall url_safe s = true → count_unit a s = 0.
Proof.
  intros Ha. induction s as [|b s IH]; [done|]. simpl.
  intros [Hb Hs]%andb_true_iff. rewrite IH by done.
  destruct (Ascii.eqb_spec a b) as [->|]; [congruence|done].
Qed.

Lemma count_unit_urlencode (a : ascii) (s : string) :
  url_safe a = false → count_unit a (Url.urlencode s) = 0.
Proof. intros Ha. apply count_unit_unsafe; [done|apply urlencode_safe]. Qed.

Lemma count_unit_String_ (a : ascii) (n : N) :
  url_safe a = false → count_unit a (Js.String_ n) = 0.
Proof.
  intros Ha. rewrite <- urlencode_String_. by apply count_unit_urlencode.
Qed.

(** X6: whatever the keyword, the URL has one question mark, no number
    sign and no space, and exactly one ampersand and one equals sign per
    parameter after the first: a keyword cannot end the query or add a
    parameter to it. *)
Theorem buildUrl_delimiters (s : AppState) (nextPage : N) :
  count_unit "?" (buildUrl s nextPage) = 1 ∧
  count_unit "#" (buildUrl s nextPage) = 0 ∧
  count_unit " " (buildUrl s nextPage) = 0 ∧
  count_unit "&" (buildUrl s nextPage)
  = (if Js.truthy (Js.trim (q s)) then 3 else 2) ∧
  count_unit "=" (buildUrl s nextPage)
  = (if Js.truthy (Js.trim (q s)) then 4 else 3).
Proof.
  rewrite buildUrl_string. unfold term_query.
  split_and!; rewrite !count_unit_app, count_unit_String_ by done;
    destruct (Js.truthy (Js.trim (q s)));
    rewrite ?count_unit_app, ?count_unit_urlencode by done; reflexivity.
Qed.

Lemma trim_start_white_space (s : string) :
  all_white_space s = true → Js.trim_start s = "".
Proof.
  unfold all_white_space. induction s as [|a s IH]; [done|]. simpl.
  intros [Ha Hs]%andb_true_iff. rewrite Ha. by apply IH.
Qed.

Lemma trim_start_pad (pre s : string) :
  all_white_space pre = true → Js.trim_start (pre +:+ s) = Js.trim_start s.
Proof.
  unfold all_white_space. induction pre as [|a pre IH]; [done|]. simpl.
  intros [Ha Hs]%andb_true_iff.
  change (Js.trim_start (String a (pre +:+ s)) = Js.trim_start s).
  simpl. rewrite Ha. by apply IH.
Qed.

Lemma trim_end_pad (s post : string) :
  all_white_space post = true → Js.trim_end (s +:+ post) = Js.trim_end s.
Proof.
  intros Hpost. induction s as [|a s IH].
  - by apply trim_end_empty.
  - change (Js.trim_end (String a (s +:+ post)) = Js.trim_end (String a s)).
    simpl. by rewrite IH.
Qed.

Lemma trim_pad (pre s post : string) :
  all_white_space pre = true → all_white_space post = true →
  Js.trim (pre +:+ s +:+ post) = Js.trim s.
Proof.
  intros Hpre Hpost. unfold Js.trim. rewrite trim_start_pad by done.
  induction s as [|a s IH].
  - change ("" +:+ post) with post.
    by rewrite trim_start_white_space.
  - change (String a s +:+ post) with (String a (s +:+ post)). simpl.
    destruct (Js.is_white_space a); [done|].
    change (String a (s +:+ post)) with (String a s +:+ post).
    by apply trim_end_pad.
Qed.

(** X7: white space typed before or after the keyword changes nothing in
    the request. *)
Theorem buildUrl_ignores_outer_white_space (s : AppState) (nextPage : N)
    (pre post : string) :
  all_white_space pre = true → all_white_space post = true →
  buildUrl (setQ (pre +:+ q s +:+ post) s) nextPage = buildUrl s nextPage.
Proof.
  intros Hpre Hpost. rewrite !buildUrl_string. simpl q.
  by rewrite trim_pad.
Qed.

Lemma buildUrl_ignores_outer_white_space_witness :
  buildUrl (setQ ("  " +:+ "clean air" +:+ String "009" " ")
              (setQ "clean air" (initial_state []))) 2
  = buildUrl (setQ "clean air" (initial_state [])) 2.
Proof.
  apply (buildUrl_ignores_outer_white_space
           (setQ "clean air" (initial_state [])) 2 "  " (String "009" " "));
    reflexivity.
Defined.

End more_request_url.

(** ** More on fetching *)

Section more_fetching.

(** X8: after [fetchDocs] the error message is empty exactly when the
    request succeeded.  When it did not, whether for want of a response, by
    its status or because the body is no JSON, the document list, the page
    counter, the more-available flag and the selected document are as
    before, and the message shown is the one of the error, or a fixed text
    when the error has none. *)
Theorem fetchDocs_error_iff_failed (net : Platform.Network) (reset : bool)
    (w : World) :
  (error (ui (fetchDocs net reset w).2) = "" ↔
   ∃ items, succeeds_with net (buildUrl (ui w) (target_page reset (ui w))) items) ∧
  ((¬ ∃ items,
        succeeds_with net (buildUrl (ui w) (target_page reset (ui w))) items) →
   docs (ui (fetchDocs net reset w).2) = docs (ui w) ∧
   page (ui (fetchDocs net reset w).2) = page (ui w) ∧
   hasMore (ui (fetchDocs net reset w).2) = hasMore (ui w) ∧
   selected (ui (fetchDocs net reset w).2) = selected (ui w)) ∧
  (∀ msg,
     net (buildUrl (ui w) (target_page reset (ui w))) = Platform.NetworkError msg →
     error (ui (fetchDocs net reset w).2)
     = if Js.truthy msg then msg else "Unknown error") ∧
  (∀ res msg,
     net (buildUrl (ui w) (target_page reset (ui w))) = Platform.Responded res →
     Platform.ok res = true → Platform.body res = Platform.NotJson msg →
     error (ui (fetchDocs net reset w).2)
     = if Js.truthy msg then msg else "Unknown error").
Proof.
  split_and!.
  - destruct (fetchDocs_outcome net reset w) as [(items & Hok & ->)|(msg & Hno & ->)].
    + split; [by exists items|done].
    + split; [|done]. intros He. by apply failed_error_nonempty in He.
  - intros Hno.
    destruct (fetchDocs_outcome net reset w) as [(items & Hok & _)|(msg & _ & ->)].
    + destruct Hno. by exists items.
    + done.
  - intros msg Hnet. by rewrite fetchDocs_run, Hnet.
  - intros res msg Hnet Hok Hbody. by rewrite fetchDocs_run, Hnet, Hok, Hbody.
Qed.

Lemma fetchDocs_q (net : Platform.Network) (reset : bool) (w : World) :
  q (ui (fetchDocs net reset w).2) = q (ui w).
Proof.
  destruct (fetchDocs_outcome net reset w) as [(? & _ & ->)|(? & _ & ->)]; done.
Qed.

Lemma fetchDocs_loading (net : Platform.Network) (reset : bool) (w : World) :
  loading (ui (fetchDocs net reset w).2) = false.
Proof.
  destruct (fetchDocs_outcome net reset w) as [(? & _ & ->)|(? & _ & ->)]; done.
Qed.

(** X9: whatever the outcome, a call of [fetchDocs] sends exactly one
    request, ends with the loading flag down, and leaves the keyword, the
    four filter fields and the bookmarks alone. *)
Theorem fetchDocs_frame (net : Platform.Network) (reset : bool) (w : World) :
  sent (fetchDocs net reset w).2
  = sent w ++ [buildUrl (ui w) (target_page reset (ui w))] ∧
  loading (ui (fetchDocs net reset w).2) = false ∧
  q (ui (fetchDocs net reset w).2) = q (ui w) ∧
  agency (ui (fetchDocs net reset w).2) = agency (ui w) ∧
  docType (ui (fetchDocs net reset w).2) = docType (ui w) ∧
  startDate (ui (fetchDocs net reset w).2) = startDate (ui w) ∧
  endDate (ui (fetchDocs net reset w).2) = endDate (ui w) ∧
  bookmarks (ui (fetchDocs net reset w).2) = bookmarks (ui w).
Proof.
  split; [apply fetchDocs_sent|].
  destruct (fetchDocs_outcome net reset w) as [(? & _ & ->)|(? & _ & ->)]; done.
Qed.

(** The request depends on the state through the keyword only. *)
Lemma buildUrl_q (s s' : AppState) (n : N) :
  q s = q s' → buildUrl s n = buildUrl s' n.
Proof. intros Hq. rewrite !buildUrl_string. by rewrite Hq. Qed.

Lemma click_load_more_q (net : Platform.Network) (w : World) :
  q (ui (click_load_more net w)) = q (ui w).
Proof.
  unfold click_load_more. destruct (load_more_disabled _); [done|].
  unfold load_next_page. by rewrite fetchDocs_q.
Qed.

Lemma load_pages_q (net : Platform.Network) (k : nat) (w : World) :
  q (ui (load_pages net k w)) = q (ui w).
Proof.
  unfold load_pages. induction k as [|k IH]; [done|]. simpl.
  by rewrite click_load_more_q.
Qed.

(** The state after [k] presses, each answered by a page, none of the pages
    before the last being empty: what the list, the counter and the
    requests are, and what the two flags of the button are. *)
Lemma load_pages_state (net : Platform.Network) (w : World)
    (pages : nat → list Document) (k : nat) :
  loading (ui w) = false → hasMore (ui w) = true →
  (∀ i, i < k →
        succeeds_with net
          (buildUrl (ui w) (page (ui w) + 1 + N.of_nat i)) (pages i)) →
  (∀ i, S i < k → pages i ≠ []) →
  (page (ui (load_pages net k w)) = (page (ui w) + N.of_nat k)%N ∧
   docs (ui (load_pages net k w)) = docs (ui w) ++ concat (map pages (seq 0 k)) ∧
   sent (load_pages net k w)
   = sent w ++ map (λ i, buildUrl (ui w) (page (ui w) + 1 + N.of_nat i))
                   (seq 0 k)) ∧
  loading (ui (load_pages net k w)) = false ∧
  hasMore (ui (load_pages net k w))
  = match k with
    | 0 => true
    | S j => Js.Boolean_number (length (pages j))
    end.
Proof.
  intros Hload Hmore. induction k as [|k IH]; intros Hall Hfull.
  - simpl. by rewrite N.add_0_r, !app_nil_r.
  - destruct IH as ((Hp & Hd & Hs) & Hl & Hm);
      [intros i Hi; apply Hall; lia | intros i Hi; apply Hfull; lia |].
    assert (load_more_disabled (ui (load_pages net k w)) = false) as Hen.
    { unfold load_more_disabled. rewrite Hl, Hm. destruct k as [|j]; [done|].
      simpl. apply negb_false_iff, Boolean_number_length, Hfull. lia. }
    assert (succeeds_with net
              (buildUrl (ui (load_pages net k w))
                 (target_page false (ui (load_pages net k w)))) (pages k)) as Hk.
    { unfold target_page. rewrite Hp.
      rewrite (buildUrl_q _ (ui w)) by apply load_pages_q.
      replace (page (ui w) + N.of_nat k + 1)%N
        with (page (ui w) + 1 + N.of_nat k)%N by lia.
      apply Hall. lia. }
    change (load_pages net (S k) w)
      with (click_load_more net (load_pages net k w)).
    unfold click_load_more. rewrite Hen.
    unfold load_next_page. rewrite (fetchDocs_success _ _ _ _ Hk).
    rewrite seq_S, !map_app, concat_app. cbn [ui sent loaded docs page loading hasMore].
    unfold target_page. rewrite Hp, Hd, Hs, <- !app_assoc.
    cbn [map concat Nat.add]. rewrite app_nil_r. split_and!; [lia|done| |done|done].
    do 3 f_equal. rewrite (buildUrl_q _ (ui w)) by apply load_pages_q.
    f_equal. lia.
Qed.

(** X10: the load-more button pressed [k] times from a state where it is
    enabled, each press answered by a page and none of the pages before the
    last being empty, asks for the [k] pages after the current one, in
    order and for the same keyword, moves the page counter forward by [k],
    and leaves the document list followed by the pages returned, in the
    order of the requests. *)
Theorem load_pages_accumulates (net : Platform.Network) (w : World) (k : nat)
    (pages : nat → list Document) :
  loading (ui w) = false → hasMore (ui w) = true →
  (∀ i, i < k →
        succeeds_with net
          (buildUrl (ui w) (page (ui w) + 1 + N.of_nat i)) (pages i)) →
  (∀ i, S i < k → pages i ≠ []) →
  page (ui (load_pages net k w)) = (page (ui w) + N.of_nat k)%N ∧
  docs (ui (load_pages net k w)) = docs (ui w) ++ concat (map pages (seq 0 k)) ∧
  sent (load_pages net k w)
  = sent w ++ map (λ i, buildUrl (ui w) (page (ui w) + 1 + N.of_nat i)) (seq 0 k).
Proof.
  intros Hload Hmore Hall Hfull.
  by destruct (load_pages_state net w pages k Hload Hmore Hall Hfull) as [? _].
Qed.

Lemma load_pages_accumulates_witness :
  page (ui (load_pages one_rule_network 3 first_world)) = 4%N ∧
  docs (ui (load_pages one_rule_network 3 first_world))
  = [rule_doc; rule_doc; rule_doc].
Proof.
  destruct (load_pages_accumulates one_rule_network first_world 3
              (λ _, [rule_doc])) as (Hp & Hd & _).
  - reflexivity.
  - reflexivity.
  - intros i _. eexists _, _. repeat split.
  - intros i _. discriminate.
  - split; [exact Hp | exact Hd].
Defined.

(** X11: a call of [fetchDocs] that does not succeed can be repeated as it
    is: the next call with the same argument sends the very same request,
    so no page is skipped after an error. *)
Theorem fetchDocs_retry_same_request (net net' : Platform.Network)
    (reset : bool) (w : World) :
  (¬ ∃ items,
       succeeds_with net (buildUrl (ui w) (target_page reset (ui w))) items) →
  sent (fetchDocs net' reset (fetchDocs net reset w).2).2
  = sent w ++ [buildUrl (ui w) (target_page reset (ui w));
               buildUrl (ui w) (target_page reset (ui w))].
Proof.
  intros Hno. rewrite !fetchDocs_sent, <- app_assoc. simpl. do 3 f_equal.
  destruct (fetchDocs_outcome net reset w) as [(items & Hok & _)|(msg & _ & ->)].
  - destruct Hno. by exists items.
  - done.
Qed.

Lemma fetchDocs_retry_same_request_witness :
  sent (load_next_page one_rule_network
          (load_next_page offline_network
             (reset_and_load one_rule_network first_world)))
  = [buildUrl (initial_state []) 1; buildUrl (initial_state []) 2;
     buildUrl (initial_state []) 2].
Proof.
  apply (fetchDocs_retry_same_request offline_network one_rule_network false
           (reset_and_load one_rule_network first_world)).
  intros (items & res & data & Hnet & _). discriminate.
Defined.

(** The two halves of [fetchDocs], run symbolically. *)
Lemma fetchDocs_begin_run (net : Platform.Network) (reset : bool) (w : World) :
  fetchDocs_begin net reset w
  = (Normal {| pending_reset := reset;
               pending_page := target_page reset (ui w);
               pending_outcome :=
                 net (buildUrl (ui w) (target_page reset (ui w))) |},
     {| ui := setError "" (setLoading true (ui w));
        sent := sent w ++ [buildUrl (ui w) (target_page reset (ui w))] |}).
Proof. by destruct reset. Qed.

Lemma fetchDocs_resume_run (p : Pending) (w : World) :
  fetchDocs_resume p w
  = (Normal (),
     {| ui :=
          match pending_outcome p with
          | Platform.NetworkError msg => failed msg (ui w)
          | Platform.Responded res =>
              if Platform.ok res then
                match Platform.body res with
                | Platform.NotJson msg => failed msg (ui w)
                | Platform.Parsed data =>
                    arrived p (default [] (data ≫= Platform.results)) (ui w)
                end
              else failed ("Request failed: " +:+ Js.String_ (Platform.status res))
                          (ui w)
          end;
        sent := sent w |}).
Proof.
  unfold fetchDocs_resume, try_catch_finally, call, await, throw, mbind, M_bind,
    mret, M_ret, promise_of, Platform.json, arrived.
  cbn -[Js.String_ String.append].
  destruct (pending_outcome p) as [msg|res]; [by destruct w|].
  destruct (Platform.ok res); [|by destruct w].
  destruct (Platform.body res); [by destruct w|].
  destruct (pending_reset p); by destruct w.
Qed.

(** Run one after the other with nothing in between, the two halves are
    [fetchDocs]. *)
Lemma fetchDocs_begin_resume (net : Platform.Network) (reset : bool) (w : World) :
  ∃ p w', fetchDocs_begin net reset w = (Normal p, w') ∧
          fetchDocs_resume p w' = fetchDocs net reset w.
Proof.
  eexists _, _. split; [apply fetchDocs_begin_run|].
  rewrite fetchDocs_resume_run, fetchDocs_run. cbn [pending_outcome ui sent].
  destruct (net _) as [msg|res]; [done|].
  destruct (Platform.ok res); [|done].
  destruct (Platform.body res); [done|]. by destruct reset.
Qed.

Lemma start_fetch_invariant (net : Platform.Network) (reset : bool) (ℓ : Live) :
  loading (ui (world (session ℓ))) = false →
  (1 ≤ page (ui (world (session ℓ))))%N →
  (reset = false →
   N.to_nat (page (ui (world (session ℓ)))) ≤ length (sent (world (session ℓ)))) →
  N.to_nat (page (ui (world (session ℓ))))
  ≤ S (length (sent (world (session ℓ)))) →
  pending ℓ = [] →
  Forall (λ u, ∃ s n, (1 ≤ n)%N ∧ u = buildUrl s n) (sent (world (session ℓ))) →
  live_invariant (start_fetch net reset ℓ).
Proof.
  intros Hload Hp Hl Hl1 Hpend Hs. unfold start_fetch.
  rewrite fetchDocs_begin_run, Hpend. unfold live_invariant.
  cbn [session world pending ui sent app length setError setLoading loading page].
  rewrite length_app. cbn [length].
  assert (1 ≤ target_page reset (ui (world (session ℓ))))%N as Ht.
  { unfold target_page. destruct reset; lia. }
  split_and!; try done; try lia.
  - apply Forall_singleton. cbn [pending_page]. split; [done|].
    unfold target_page in *. destruct reset; [lia|]. specialize (Hl eq_refl). lia.
  - apply Forall_app. split; [done|]. apply Forall_singleton. by eexists _, _.
Qed.

Lemma handle_edit_frame (e : Event) (σ : Session) :
  (∀ net, e ≠ ClickSearch net) → (∀ net, e ≠ ClickLoadMore net) →
  loading (ui (world (handle e σ))) = loading (ui (world σ)) ∧
  page (ui (world (handle e σ))) = page (ui (world σ)) ∧
  sent (world (handle e σ)) = sent (world σ).
Proof.
  intros Hs Hm. destruct e; try done.
  - by destruct (Hs net).
  - by destruct (Hm net).
Qed.

Lemma live_handle_invariant (ev : LiveEvent) (ℓ : Live) :
  live_invariant ℓ → live_invariant (live_handle ev ℓ).
Proof.
  intros Hinv. pose proof Hinv as (Hlen & Hload & Hp & Hl & Hpend & Hs).
  assert (loading (ui (world (session ℓ))) = false → pending ℓ = []) as Hidle.
  { intros Hf. destruct (pending ℓ) as [|p ps] eqn:E; [done|].
    assert (loading (ui (world (session ℓ))) = true) by (by apply Hload).
    congruence. }
  destruct ev as [e|i].
  - assert ((∀ net, e ≠ ClickSearch net) → (∀ net, e ≠ ClickLoadMore net) →
            live_invariant {| session := handle e (session ℓ);
                              pending := pending ℓ |}) as Hedit.
    { intros H1 H2.
      destruct (handle_edit_frame e (session ℓ) H1 H2) as (El & Ep & Es).
      unfold live_invariant. cbn [session pending]. by rewrite El, Ep, Es. }
    destruct e; try (apply Hedit; done).
    + simpl. unfold search_disabled.
      destruct (loading (ui (world (session ℓ)))) eqn:Hld; [done|].
      apply start_fetch_invariant; auto with lia.
    + simpl. unfold load_more_disabled.
      destruct (loading (ui (world (session ℓ)))) eqn:Hld; [done|].
      destruct (hasMore (ui (world (session ℓ)))); simpl; [|done].
      apply start_fetch_invariant; auto with lia.
  - simpl. destruct (pending ℓ !! i) as [p|] eqn:Hi; [|done].
    destruct (pending ℓ) as [|p' [|? ?]] eqn:E; [done| |simpl in Hlen; lia].
    destruct i as [|i]; [|done]. simpl in Hi. injection Hi as ->.
    apply Forall_singleton in Hpend as [Hp1 Hp2].
    unfold live_invariant. rewrite fetchDocs_resume_run.
    cbn [session world pending ui sent delete list_delete].
    split; [simpl; lia|].
    assert (∀ s', loading s' = false → (loading s' = true ↔ @nil Pending ≠ []))
      as Hdown.
    { intros s' ->. split; [discriminate|done]. }
    destruct (pending_outcome p) as [msg|res];
      [split_and!; try done; by apply Hdown|].
    destruct (Platform.ok res);
      [|split_and!; try done; by apply Hdown].
    destruct (Platform.body res);
      split_and!; try done; by apply Hdown.
Qed.

Lemma live_run_invariant (events : list LiveEvent) (ℓ : Live) :
  live_invariant ℓ → live_invariant (live_run events ℓ).
Proof.
  unfold live_run. revert ℓ.
  induction events as [|ev events IH]; intros ℓ Hℓ; simpl.
  - done.
  - by apply IH, live_handle_invariant.
Qed.

(** X12: with answers arriving at any later moment and the user free to
    edit the keyword and the filters, open details and toggle bookmarks in
    between, at most one call of [fetchDocs] waits for its answer at any
    time, the loading flag is up exactly while one does, the page counter is
    at least 1 and at most the number of requests sent so far, and every
    request sent asked for a page from 1 on. *)
Theorem live_session_fetch_invariant (net : Platform.Network)
    (stored : list string) (ls : Platform.Storage) (events : list LiveEvent) :
  length (pending (live_run events (live_mount net stored ls))) ≤ 1 ∧
  (loading (ui (world (session (live_run events (live_mount net stored ls)))))
   = true
   ↔ pending (live_run events (live_mount net stored ls)) ≠ []) ∧
  (1 ≤ page (ui (world (session (live_run events (live_mount net stored ls))))))%N ∧
  N.to_nat (page (ui (world (session (live_run events (live_mount net stored ls))))))
  ≤ length (sent (world (session (live_run events (live_mount net stored ls))))) ∧
  Forall (λ u, ∃ s n, (1 ≤ n)%N ∧ u = buildUrl s n)
         (sent (world (session (live_run events (live_mount net stored ls))))).
Proof.
  destruct (live_run_invariant events (live_mount net stored ls))
    as (H1 & H2 & H3 & H4 & _ & H6); [|done].
  unfold live_mount. apply start_fetch_invariant; simpl; auto with lia.
Qed.

(** The callback of [filtered] reads the four filter fields and nothing
    else of the state. *)
Lemma keep_fields (s s' : AppState) (d : Document) :
  agency s' = agency s → docType s' = docType s →
  startDate s' = startDate s → endDate s' = endDate s →
  keep s' d = keep s d.
Proof. unfold keep. by intros -> -> -> ->. Qed.

(** X13: when load more succeeds the cards already shown stay where they
    are, and those of the new page that pass the filters follow them. *)
Theorem load_next_page_extends_filtered (net : Platform.Network) (w : World)
    (items : list Document) :
  succeeds_with net (buildUrl (ui w) (page (ui w) + 1)) items →
  filtered (ui (load_next_page net w))
  = filtered (ui w) ++ List.filter (keep (ui w)) items.
Proof.
  intros Hok. unfold load_next_page.
  rewrite (fetchDocs_success net false w items Hok). unfold filtered. simpl.
  rewrite List.filter_app. f_equal; apply List.filter_ext; intros d;
    by apply keep_fields.
Qed.

Lemma load_next_page_extends_filtered_witness :
  filtered (ui (load_next_page one_rule_network
                  {| ui := with_filters [undated_doc] "" "Rule" "" "";
                     sent := [] |}))
  = [] ++ [rule_doc].
Proof.
  apply (load_next_page_extends_filtered one_rule_network
           {| ui := with_filters [undated_doc] "" "Rule" "" ""; sent := [] |}
           [rule_doc]).
  eexists _, _. repeat split.
Defined.

Lemma elem_of_agencyOptions (s : AppState) (x : string) :
  x ∈ agencyOptions s ↔ ∃ d, d ∈ docs s ∧ x ∈ agency_names d.
Proof.
  unfold agencyOptions, Js.Array_from. cbv zeta.
  rewrite elem_of_sort, elem_of_agency_set, elem_of_nil. tauto.
Qed.

Lemma elem_of_typeOptions (s : AppState) (x : string) :
  x ∈ typeOptions s ↔ x ≠ "" ∧ ∃ d, d ∈ docs s ∧ document_type d = Some x.
Proof.
  unfold typeOptions, Js.Array_from. cbv zeta.
  rewrite elem_of_sort, elem_of_Set_new, elem_of_filter_Boolean,
    list_elem_of_fmap.
  split; intros [Hx (d & Hd & Hin)]; (split; [done|]); exists d; done.
Qed.

(** X14: when load more succeeds no option leaves the two option lists: an
    agency or a type that could be picked before can still be picked. *)
Theorem load_next_page_keeps_options (net : Platform.Network) (w : World)
    (items : list Document) :
  succeeds_with net (buildUrl (ui w) (page (ui w) + 1)) items →
  (∀ x, x ∈ agencyOptions (ui w) → x ∈ agencyOptions (ui (load_next_page net w))) ∧
  (∀ x, x ∈ typeOptions (ui w) → x ∈ typeOptions (ui (load_next_page net w))).
Proof.
  intros Hok. unfold load_next_page.
  rewrite (fetchDocs_success net false w items Hok). simpl ui.
  split; intros x.
  - rewrite !elem_of_agencyOptions. simpl docs.
    intros (d & Hd & Hx). exists d. rewrite elem_of_app. tauto.
  - rewrite !elem_of_typeOptions. simpl docs.
    intros (Hne & d & Hd & Hx). split; [done|]. exists d.
    rewrite elem_of_app. tauto.
Qed.

Lemma load_next_page_keeps_options_witness :
  "Rule" ∈ typeOptions (ui (load_next_page no_results_network
                              {| ui := with_filters [rule_doc] "" "" "" "";
                                 sent := [] |})).
Proof.
  apply (load_next_page_keeps_options no_results_network
           {| ui := with_filters [rule_doc] "" "" "" ""; sent := [] |} []).
  - eexists _, _. repeat split.
  - vm_compute. apply list_elem_of_here.
Defined.

(** X20: a request that succeeds leaves the load-more button disabled
    exactly when the page it returned is empty; while it is disabled a
    click on it changes nothing and sends nothing. *)
Theorem empty_page_disables_load_more (net : Platform.Network) (reset : bool)
    (w : World) (items : list Document) :
  succeeds_with net (buildUrl (ui w) (target_page reset (ui w))) items →
  (load_more_disabled (ui (fetchDocs net reset w).2) = true ↔ items = []) ∧
  (items = [] →
   ∀ net', click_load_more net' (fetchDocs net reset w).2
           = (fetchDocs net reset w).2).
Proof.
  intros Hok. rewrite (fetchDocs_success net reset w items Hok).
  assert (load_more_disabled (loaded reset items (ui w)) = true ↔ items = [])
    as Hiff.
  { unfold load_more_disabled. simpl. by destruct items. }
  split; [done|]. intros Hnil net'. unfold click_load_more. simpl ui.
  by rewrite (proj2 Hiff Hnil).
Qed.

Lemma empty_page_disables_load_more_witness :
  load_more_disabled (ui (fetchDocs no_results_network true first_world).2)
  = true ∧
  click_load_more one_rule_network
    (fetchDocs no_results_network true first_world).2
  = (fetchDocs no_results_network true first_world).2.
Proof.
  destruct (empty_page_disables_load_more no_results_network true first_world [])
    as [Hd Hc].
  - eexists _, _. repeat split.
  - split; [by apply Hd | by apply Hc].
Defined.

End more_fetching.

(** ** More on the filters and the strip *)

Section more_filters.

Lemma filter_all (l : list Document) : List.filter (λ _, true) l = l.
Proof. induction l as [|d l IH]; simpl; [done|]. by rewrite IH. Qed.

(** X15: after Reset filters every loaded document is shown, in the order
    of loading, and nothing but the four filter fields has changed. *)
Theorem resetFilters_shows_all (s : AppState) :
  filtered (resetFilters s) = docs s ∧
  docs (resetFilters s) = docs s ∧ q (resetFilters s) = q s ∧
  page (resetFilters s) = page s ∧ hasMore (resetFilters s) = hasMore s ∧
  selected (resetFilters s) = selected s ∧
  bookmarks (resetFilters s) = bookmarks s.
Proof. split; [|done]. apply filter_all. Qed.

(** X16: every option of the two lists selects something: picking an
    agency option with the other filters empty shows at least one document,
    one that lists the agency, and picking a type option shows at least one
    document of that type. *)
Theorem options_select_documents (s : AppState) :
  (∀ a, a ∈ agencyOptions s →
        ∃ d, d ∈ filtered (setAgency a (resetFilters s)) ∧ a ∈ agency_names d) ∧
  (∀ t, t ∈ typeOptions s →
        ∃ d, d ∈ filtered (setDocType t (resetFilters s)) ∧
             document_type d = Some t).
Proof.
  split.
  - intros a (d & Hd & Ha)%elem_of_agencyOptions. exists d. split; [|done].
    apply elem_of_filtered. split; [done|].
    unfold passes, agency_ok, type_ok, start_ok_or_undated, end_ok_or_undated.
    simpl. tauto.
  - intros t (Hne & d & Hd & Ht)%elem_of_typeOptions. exists d. split; [|done].
    apply elem_of_filtered. split; [done|].
    unfold passes, agency_ok, type_ok, start_ok_or_undated, end_ok_or_undated.
    simpl. tauto.
Qed.

Lemma options_select_documents_witness :
  ∃ d, d ∈ filtered (setDocType "Rule"
                       (resetFilters (with_filters [undated_doc; rule_doc]
                                        "" "Notice" "2025-01-01" ""))) ∧
       document_type d = Some "Rule".
Proof.
  apply (options_select_documents
           (with_filters [undated_doc; rule_doc] "" "Notice" "2025-01-01" "")).
  vm_compute. apply list_elem_of_further, list_elem_of_here.
Defined.

(** X17: with an end date set and a start date after it, no document that
    has a publication date is shown: what is left are the documents
    without one. *)
Theorem inverted_range_hides_dated (s : AppState) (d : Document) :
  endDate s ≠ "" → String.ltb (endDate s) (startDate s) = true →
  d ∈ filtered s → publication_date d = None.
Proof.
  intros He Hlt (_ & _ & _ & Hs & Hend)%elem_of_filtered.
  destruct (publication_date d) as [p|] eqn:Hp; [exfalso|done].
  unfold start_ok_or_undated, end_ok_or_undated in *. rewrite Hp in *.
  destruct Hend as [?|Hend]; [done|].
  destruct Hs as [Hs|Hs].
  - rewrite Hs in Hlt. by destruct (endDate s).
  - assert (String.le (startDate s) (endDate s)) as Hle by (by etrans).
    apply ltb_false_le in Hle. congruence.
Qed.

Lemma inverted_range_hides_dated_witness :
  undated_doc ∈ filtered inverted_range_state ∧
  publication_date undated_doc = None ∧
  filtered inverted_range_state = [undated_doc].
Proof.
  split; [vm_compute; apply list_elem_of_here|].
  split; [|reflexivity].
  apply (inverted_range_hides_dated inverted_range_state undated_doc).
  - discriminate.
  - reflexivity.
  - vm_compute. apply list_elem_of_here.
Defined.

Lemma sublist_filter_impl {A} (f g : A → bool) (l : list A) :
  (∀ x, f x = true → g x = true) →
  sublist (List.filter f l) (List.filter g l).
Proof.
  intros Himp. induction l as [|x l IH]; simpl; [constructor|].
  destruct (f x) eqn:Hf.
  - rewrite (Himp x Hf). by constructor.
  - destruct (g x); [by constructor|done].
Qed.

Lemma passes_relaxes (s s' : AppState) (d : Document) :
  relaxes s' s → passes s d → passes s' d.
Proof.
  intros (_ & Ha & Ht & Hs & He) (Pa & Pt & Ps & Pe).
  unfold passes, agency_ok, type_ok, start_ok_or_undated, end_ok_or_undated in *.
  split_and!.
  - destruct Ha as [->| ->]; tauto.
  - destruct Ht as [->| ->]; tauto.
  - destruct Hs as [->| ->]; tauto.
  - destruct He as [->| ->]; tauto.
Qed.

(** X18: emptying some of the four filter fields and leaving the others
    never hides a document: the cards shown before are shown after, in the
    same order. *)
Theorem relaxing_filters_shows_more (s s' : AppState) :
  relaxes s' s → sublist (filtered s) (filtered s').
Proof.
  intros Hrel. pose proof Hrel as (Hdocs & _). unfold filtered.
  rewrite Hdocs. apply sublist_filter_impl. intros d.
  rewrite !keep_passes. by apply passes_relaxes.
Qed.

Lemma relaxing_filters_shows_more_witness :
  sublist (filtered (with_filters [rule_doc; undated_doc] "" "Rule" "2024-01-01" ""))
          (filtered (with_filters [rule_doc; undated_doc] "" "" "2024-01-01" "")).
Proof.
  apply (relaxing_filters_shows_more
           (with_filters [rule_doc; undated_doc] "" "Rule" "2024-01-01" "")
           (with_filters [rule_doc; undated_doc] "" "" "2024-01-01" "")).
  repeat split; auto.
Defined.

Lemma find_doc_Some (b : string) (l : list Document) (d : Document) :
  find_doc b l = Some d → d ∈ l ∧ document_number d = b.
Proof.
  intros [Hin Heq]%find_some. apply String.eqb_eq in Heq.
  by rewrite list_elem_of_In.
Qed.

Lemma find_doc_None (b : string) (l : list Document) :
  find_doc b l = None ↔ ∀ d, d ∈ l → document_number d ≠ b.
Proof.
  unfold find_doc. split.
  - intros Hnone d Hd%list_elem_of_In.
    apply (find_none _ _ Hnone) in Hd. by apply String.eqb_neq.
  - intros Hall. destruct (List.find _ l) as [d|] eqn:Hf; [|done].
    apply find_some in Hf as [Hin Heq]. apply String.eqb_eq in Heq.
    apply list_elem_of_In in Hin. by destruct (Hall d Hin).
Qed.

(** X19: the strip has one slot per bookmark.  A slot shows a loaded
    document carrying the bookmarked number; every loaded document that is
    bookmarked has its number shown in some slot; and a slot is left empty
    exactly for a bookmark whose number no loaded document carries. *)
Theorem bookmark_strip_shows_loaded (s : AppState) :
  length (bookmark_strip s) = length (bookmarks s) ∧
  (∀ d, Some d ∈ bookmark_strip s →
        d ∈ docs s ∧ isBookmarked s (document_number d) = true) ∧
  (∀ d, d ∈ docs s → isBookmarked s (document_number d) = true →
        ∃ d', Some d' ∈ bookmark_strip s ∧
              document_number d' = document_number d) ∧
  (None ∈ bookmark_strip s ↔
   ∃ b, b ∈ bookmarks s ∧ ∀ d, d ∈ docs s → document_number d ≠ b).
Proof.
  unfold bookmark_strip, isBookmarked. split_and!.
  - apply length_map.
  - intros d (b & Hf & Hb)%list_elem_of_fmap. symmetry in Hf.
    apply find_doc_Some in Hf as [Hd ->]. by rewrite includes_elem_of.
  - intros d Hd Hb%includes_elem_of.
    destruct (find_doc (document_number d) (docs s)) as [d'|] eqn:Hf.
    + exists d'. split.
      * apply list_elem_of_fmap. by exists (document_number d).
      * by apply find_doc_Some in Hf as [_ ?].
    + rewrite find_doc_None in Hf. by destruct (Hf d Hd).
  - rewrite list_elem_of_fmap. split.
    + intros (b & Hf & Hb). exists b. split; [done|]. by apply find_doc_None.
    + intros (b & Hb & Hall). exists b. split; [|done]. symmetry.
      by apply find_doc_None.
Qed.

End more_filters.

(** ** The shape of the response body *)

Section response_shapes.

Lemma member_None (name : string) (members : list (string * Json.json)) :
  member name members = None ↔ ∀ v, (name, v) ∉ members.
Proof.
  induction members as [|[k v] rest IH]; simpl.
  - split; [|done]. intros _ v Hv. by apply elem_of_nil in Hv.
  - destruct (member name rest) as [v'|] eqn:Hm.
    + split; [done|]. intros Hall.
      assert (∀ x, (name, x) ∉ rest) as Hrest.
      { intros x Hx. apply (Hall x). by apply list_elem_of_further. }
      apply IH in Hrest. discriminate.
    + destruct (String.eqb_spec k name) as [->|Hne].
      * split; [done|]. intros Hall. destruct (Hall v). apply list_elem_of_here.
      * split; [|done]. intros _ x [Hx|Hx]%elem_of_cons.
        -- congruence.
        -- by apply (proj1 IH eq_refl x).
Qed.

Lemma status_ok_response (res : Platform.Response) :
  Platform.ok res = status_ok (Platform.status res).
Proof. reflexivity. Qed.

(** On a payload of the expected shape the untyped reading of the body
    gives the documents the typed one gives. *)
Lemma fetched_items_typed (res : Platform.Response) (data : option Platform.Payload) :
  Platform.ok res = true → Platform.body res = Platform.Parsed data →
  fetched_items (Platform.status res) (raw_body (Platform.body res))
  = Normal (Json.JArray
              (map document_value (default [] (data ≫= Platform.results)))).
Proof.
  intros Hok ->. unfold fetched_items. rewrite <- status_ok_response, Hok.
  destruct data as [[[l|]]|]; reflexivity.
Qed.

(** The two readings throw the same errors. *)
Lemma fetched_items_throws (net : Platform.Network) (reset : bool)
    (now : AppState) (w : World) (res : Platform.Response) (e : JsError) :
  net (buildUrl now (target_page reset now)) = Platform.Responded res →
  (fetchDocs_try net reset now w).1 = Throw e
  ↔ fetched_items (Platform.status res) (raw_body (Platform.body res)) = Throw e.
Proof.
  intros Hnet. rewrite fetchDocs_try_completion, Hnet. unfold fetched_items.
  rewrite <- status_ok_response.
  destruct (Platform.ok res); simpl;
    [|split; intros H; injection H as <-; reflexivity].
  destruct (Platform.body res); simpl;
    [split; intros H; injection H as <-; reflexivity|].
  split; discriminate.
Qed.

(** C5 (as amended): the [try] block throws the error made from the status
    code exactly when the status is no success status.  On a success status
    a body that is no JSON is an error of its own; a JSON body that is no
    object, an object without [results], and an object whose [results] is
    [null] give the empty list; and any other [results] is taken for the
    items as it is, whatever its shape. *)
Theorem fetched_items_by_shape (status : N) (body : RawBody) :
  (fetched_items status body
   = Throw (new_Error ("Request failed: " +:+ Js.String_ status))
   ↔ status_ok status = false) ∧
  (status_ok status = true →
   (∀ msg, body = NoJson msg →
           fetched_items status body
           = Throw {| error_class := SyntaxError; message := msg |}) ∧
   (∀ data, body = JsonValue data →
            (∀ members, data ≠ Json.JObject members) →
            fetched_items status body = Normal (Json.JArray [])) ∧
   (∀ members, body = JsonValue (Json.JObject members) →
               (∀ v, ("results", v) ∉ members) →
               fetched_items status body = Normal (Json.JArray [])) ∧
   (∀ members, body = JsonValue (Json.JObject members) →
               member "results" members = Some Json.JNull →
               fetched_items status body = Normal (Json.JArray [])) ∧
   (∀ members v, body = JsonValue (Json.JObject members) →
                 member "results" members = Some v → v ≠ Json.JNull →
                 fetched_items status body = Normal v)).
Proof.
  unfold fetched_items. split.
  - destruct (status_ok status); simpl; [|done].
    split; [|done]. by destruct body.
  - intros ->. simpl. split_and!.
    + by intros msg ->.
    + intros data -> Hno. destruct data; try done. by destruct (Hno members).
    + intros members -> Hno%member_None. simpl. by rewrite Hno.
    + intros members -> Hm. simpl. by rewrite Hm.
    + intros members v -> Hm Hv. simpl. rewrite Hm. by destruct v.
Qed.

Lemma fetched_items_by_shape_witness :
  fetched_items 200 (JsonValue (Json.JObject [("count", Json.JNumber "0")]))
  = Normal (Json.JArray []) ∧
  fetched_items 200 (JsonValue (Json.JObject [("results", Json.JNull)]))
  = Normal (Json.JArray []) ∧
  fetched_items 200 (JsonValue (Json.JString "maintenance"))
  = Normal (Json.JArray []).
Proof.
  destruct (fetched_items_by_shape 200
              (JsonValue (Json.JObject [("count", Json.JNumber "0")])))
    as [_ H1].
  destruct (fetched_items_by_shape 200
              (JsonValue (Json.JObject [("results", Json.JNull)]))) as [_ H2].
  destruct (fetched_items_by_shape 200 (JsonValue (Json.JString "maintenance")))
    as [_ H3].
  destruct (H1 eq_refl) as (_ & _ & Ha & _).
  destruct (H2 eq_refl) as (_ & _ & _ & Hb & _).
  destruct (H3 eq_refl) as (_ & Hc & _).
  split_and!.
  - apply (Ha _ eq_refl). intros v [Hv|Hv]%elem_of_cons; [discriminate|].
    by apply elem_of_nil in Hv.
  - by apply (Hb _ eq_refl).
  - by apply (Hc _ eq_refl).
Defined.

(** C5 as stated fails: a success response whose body is JSON with a number
    for [results] has that number for its items, not the empty list; and a
    success response whose body is no JSON ends in an error message. *)
Lemma numeric_results_kept_as_items :
  status_ok 200 = true ∧
  Json.parse (Json.stringify numeric_results) = Normal numeric_results ∧
  fetched_items 200 (JsonValue numeric_results) = Normal (Json.JNumber "5") ∧
  Json.JNumber "5" ≠ Json.JArray [] ∧
  error (ui (reset_and_load html_network first_world))
  = "Unexpected token < in JSON".
Proof. split_and!; done. Qed.

End response_shapes.

(** ** A live session, step by step *)

Section live_examples.

(** While the initial load waits for its answer the user edits the keyword
    and bookmarks a number; the loading flag is up and both buttons are
    disabled.  The answer then arrives for the request that left at mount,
    without a search term. *)
Example live_edits_while_loading :
  loading (ui (world (session
     (live_run [Do (EditKeyword "air"); Do (ClickBookmark "2024-05000");
                Do (ClickSearch one_rule_network)]
        (live_mount one_rule_network [] empty_storage))))) = true ∧
  length (pending
     (live_run [Do (EditKeyword "air"); Do (ClickBookmark "2024-05000");
                Do (ClickSearch one_rule_network)]
        (live_mount one_rule_network [] empty_storage))) = 1 ∧
  world (session
     (live_run [Do (EditKeyword "air"); Do (ClickBookmark "2024-05000");
                Do (ClickSearch one_rule_network); Arrive 0]
        (live_mount one_rule_network [] empty_storage)))
  = {| ui := setBookmarks (λ _, ["2024-05000"])
               (setQ "air" (loaded true [rule_doc] (initial_state [])));
       sent := [buildUrl (initial_state []) 1] |}.
Proof. split_and!; reflexivity. Qed.

(** A second press of load more while the first waits sends nothing. *)
Example live_double_press :
  sent (world (session
     (live_run [Arrive 0; Do (ClickLoadMore one_rule_network);
                Do (ClickLoadMore one_rule_network); Arrive 0]
        (live_mount one_rule_network [] empty_storage))))
  = [buildUrl (initial_state []) 1; buildUrl (initial_state []) 2] ∧
  page (ui (world (session
     (live_run [Arrive 0; Do (ClickLoadMore one_rule_network);
                Do (ClickLoadMore one_rule_network); Arrive 0]
        (live_mount one_rule_network [] empty_storage))))) = 2%N.
Proof. split; reflexivity. Qed.

(** The button pressed three times after an empty page sends nothing. *)
Example presses_after_empty_page :
  load_pages one_rule_network 3 (reset_and_load no_results_network first_world)
  = reset_and_load no_results_network first_world.
Proof. reflexivity. Qed.

End live_examples.
